(** * Scan cost planner: the pricing engine of [src/app/page.tsx]

    The engine is the pure function [calculate] together with its helper
    [safeNumber].  This development embeds both and proves the properties
    of the engine that the specification lists.

    ** Numbers

    A TypeScript [number] is an IEEE-754 binary64 value.  The model keeps
    every special value the engine can meet ([NaN], the two infinities and
    the negative zero) and their propagation rules, and takes the finite
    values to be exact rationals: rounding, overflow and underflow of
    binary64 are not represented. *)

From Stdlib Require Import ZArith QArith Qcanon Qround Bool List String.
Import ListNotations.

Set Implicit Arguments.

(** ** The [number] type *)

Module Num.

Local Open Scope Qc_scope.

(** [Fin 0] is the positive zero; [NegZero] is [-0]. *)
Inductive number : Type :=
| NaN
| PosInfinity
| NegInfinity
| NegZero
| Fin (q : Qc).

Definition zero : number := Fin 0.
Definition one : number := Fin 1.

Definition Qc_ltb (a b : Qc) : bool :=
  match a ?= b with Lt => true | _ => false end.

Definition Qc_eqb (a b : Qc) : bool :=
  match a ?= b with Eq => true | _ => false end.

(** The rational value of a finite number (0 on the special values). *)
Definition val (x : number) : Qc :=
  match x with Fin q => q | _ => 0 end.

Definition is_nan (x : number) : bool :=
  match x with NaN => true | _ => false end.

Definition is_inf (x : number) : bool :=
  match x with PosInfinity | NegInfinity => true | _ => false end.

(** [Number.isFinite]. *)
Definition is_finite (x : number) : bool :=
  match x with NegZero | Fin _ => true | _ => false end.

Definition is_zero (x : number) : bool :=
  match x with NegZero => true | Fin q => Qc_eqb q 0 | _ => false end.

(** Sign bit: [true] for negative values, including [-0]. *)
Definition sgn (x : number) : bool :=
  match x with
  | NegInfinity | NegZero => true
  | Fin q => Qc_ltb q 0
  | _ => false
  end.

Definition zero_of (s : bool) : number := if s then NegZero else Fin 0.
Definition inf_of (s : bool) : number := if s then NegInfinity else PosInfinity.

(** Unary minus. *)
Definition neg (x : number) : number :=
  match x with
  | NaN => NaN
  | PosInfinity => NegInfinity
  | NegInfinity => PosInfinity
  | NegZero => Fin 0
  | Fin q => if Qc_eqb q 0 then NegZero else Fin (- q)
  end.

(** [x + y]. *)
Definition add (x y : number) : number :=
  match x, y with
  | NaN, _ | _, NaN => NaN
  | PosInfinity, NegInfinity | NegInfinity, PosInfinity => NaN
  | PosInfinity, _ | _, PosInfinity => PosInfinity
  | NegInfinity, _ | _, NegInfinity => NegInfinity
  | NegZero, NegZero => NegZero
  | NegZero, Fin q | Fin q, NegZero => Fin q
  | Fin a, Fin b => Fin (a + b)
  end.

(** [x - y]. *)
Definition sub (x y : number) : number := add x (neg y).

(** [x * y]. *)
Definition mul (x y : number) : number :=
  if is_nan x || is_nan y then NaN
  else
    let s := xorb (sgn x) (sgn y) in
    if is_inf x then (if is_zero y then NaN else inf_of s)
    else if is_inf y then (if is_zero x then NaN else inf_of s)
    else if is_zero x || is_zero y then zero_of s
    else Fin (val x * val y).

(** [x / y]. *)
Definition div (x y : number) : number :=
  if is_nan x || is_nan y then NaN
  else
    let s := xorb (sgn x) (sgn y) in
    if is_inf x then (if is_inf y then NaN else inf_of s)
    else if is_inf y then zero_of s
    else if is_zero y then (if is_zero x then NaN else inf_of s)
    else if is_zero x then zero_of s
    else Fin (val x / val y).

(** [x < y]; false as soon as one side is [NaN]. *)
Definition ltb (x y : number) : bool :=
  match x, y with
  | NaN, _ | _, NaN => false
  | _, NegInfinity => false
  | NegInfinity, _ => true
  | PosInfinity, _ => false
  | _, PosInfinity => true
  | _, _ => Qc_ltb (val x) (val y)
  end.

(** [x === y] on numbers: [NaN] differs from everything, [-0 === 0]. *)
Definition eqb (x y : number) : bool :=
  match x, y with
  | NaN, _ | _, NaN => false
  | PosInfinity, PosInfinity | NegInfinity, NegInfinity => true
  | PosInfinity, _ | _, PosInfinity => false
  | NegInfinity, _ | _, NegInfinity => false
  | _, _ => Qc_eqb (val x) (val y)
  end.

(** [x > y], [x <= y], [x >= y], [x !== y]. *)
Definition gtb (x y : number) : bool := ltb y x.
Definition leb (x y : number) : bool := ltb x y || eqb x y.
Definition geb (x y : number) : bool := leb y x.
Definition neqb (x y : number) : bool := negb (eqb x y).

(** [Math.ceil]: the special values are fixed, a value in (-1, 0) gives
    [-0]. *)
Definition ceil (x : number) : number :=
  match x with
  | Fin q =>
      let c := Qceiling q in
      if Z.eqb c 0 && Qc_ltb q 0 then NegZero else Fin (Q2Qc (inject_Z c))
  | _ => x
  end.

(** [Math.max] of two arguments: [NaN] if either is, and [+0] is larger
    than [-0]. *)
Definition max (x y : number) : number :=
  if is_nan x || is_nan y then NaN
  else if ltb x y then y
  else if ltb y x then x
  else if sgn x then y else x.

(** [Number.isInteger]. *)
Definition is_integer (x : number) : bool :=
  match x with
  | NegZero => true
  | Fin q => Pos.eqb (Qden q) 1
  | _ => false
  end.

End Num.

Export Num.

Declare Scope js_scope.
Delimit Scope js_scope with js.
Bind Scope js_scope with number.
Infix "+" := add : js_scope.
Infix "-" := sub : js_scope.
Infix "*" := mul : js_scope.
Infix "/" := div : js_scope.
Infix ">" := gtb : js_scope.
Infix "<" := ltb : js_scope.
Infix "<=" := leb : js_scope.
Infix ">=" := geb : js_scope.
Infix "!==" := neqb (at level 70) : js_scope.
Infix "===" := eqb (at level 70) : js_scope.

(** ** Data model *)

Inductive Mode : Type := noDeadline | withDeadline.
Inductive LaborMode : Type := perPage | salary.

Definition Mode_eqb (a b : Mode) : bool :=
  match a, b with
  | noDeadline, noDeadline | withDeadline, withDeadline => true
  | _, _ => false
  end.

Definition LaborMode_eqb (a b : LaborMode) : bool :=
  match a, b with
  | perPage, perPage | salary, salary => true
  | _, _ => false
  end.

Record InputState : Type := mkInput {
  pages : number;
  laborPerPage : number;
  monthlySalaryPerWorker : number;
  scannerMonthly : number;
  pcMonthly : number;
  workingDaysPerMonth : number;
  officePerJob : number;
  riskRate : number;
  gpRate : number;
  capacityPerPersonPerDay : number;
  workersManual : number;
  deadlineDays : number;
  trialPricePerPage : number
}.

(** A field of type [number | null] is an [option number]. *)
Record CalcResult : Type := mkResult {
  valid : bool;
  modeUsed : Mode;
  workers : number;
  daysNeeded : number;
  monthsNeeded : number;
  monthlyRentalPerWorker : number;
  rentalTotal : number;
  laborCost : number;
  officeCost : number;
  baseCost : number;
  requiredRevenue : option number;
  requiredPricePerPage : option number;
  riskAmount : option number;
  targetGPAmount : option number;
  profitAfterRisk : option number;
  trialRevenue : option number;
  trialRiskAmount : option number;
  trialProfit : option number;
  trialGPPercent : option number;
  errors : list string
}.

(** ** The engine *)

Local Open Scope js_scope.
Local Open Scope string_scope.

(** [safeNumber]: [NaN] and the infinities become 0. *)
Definition safeNumber (value : number) : number :=
  if is_nan value || negb (is_finite value) then zero else value.

(** The four validation messages, in the order they are pushed. *)
Definition msg_pages : string := "กรุณากรอกจำนวนหน้าให้มากกว่า 0".
Definition msg_capacity : string :=
  "กรุณากรอกความสามารถสแกนต่อคน/วันให้มากกว่า 0".
Definition msg_workingDays : string :=
  "กรุณากรอกจำนวนวันทำงานต่อเดือนให้มากกว่า 0".
Definition msg_rates : string := "ค่าความเสี่ยง + GP ต้องรวมน้อยกว่า 100%".

(** [if (c) errors.push(msg)]. *)
Definition push_if (c : bool) (msg : string) (errs : list string)
  : list string :=
  if c then errs ++ [msg] else errs.

(** [errors.length === 0]. *)
Definition no_errors (errs : list string) : bool :=
  Nat.eqb (List.length errs) 0.

(** [calculate], statement by statement.  A [let] variable that is
    assigned under an [if] becomes a conditional expression; the two
    groups of nullable fields stay [None] unless their guard holds. *)
Definition calculate (input : InputState) (mode : Mode)
  (laborMode : LaborMode) : CalcResult :=
  let errors0 : list string := [] in

  let pages := safeNumber input.(pages) in
  let laborPerPage := safeNumber input.(laborPerPage) in
  let monthlySalaryPerWorker := safeNumber input.(monthlySalaryPerWorker) in
  let scannerMonthly := safeNumber input.(scannerMonthly) in
  let pcMonthly := safeNumber input.(pcMonthly) in
  let workingDaysPerMonth := safeNumber input.(workingDaysPerMonth) in
  let officePerJob := safeNumber input.(officePerJob) in
  let riskRate := safeNumber input.(riskRate) in
  let gpRate := safeNumber input.(gpRate) in
  let capacity := safeNumber input.(capacityPerPersonPerDay) in
  let workersManual := max one (safeNumber input.(workersManual)) in
  let deadlineDays := safeNumber input.(deadlineDays) in
  let trialPricePerPage := safeNumber input.(trialPricePerPage) in

  let errors1 := push_if (pages <= zero) msg_pages errors0 in
  let errors2 := push_if (capacity <= zero) msg_capacity errors1 in
  let errors3 := push_if (workingDaysPerMonth <= zero) msg_workingDays errors2 in
  let errors := push_if (one - riskRate - gpRate <= zero) msg_rates errors3 in

  (* 1) head count *)
  let workers :=
    if Mode_eqb mode withDeadline && (deadlineDays > zero) then
      let rawWorkers := pages / (capacity * deadlineDays) in
      max one (ceil rawWorkers)
    else workersManual in

  (* 2) working days *)
  let daysNeeded :=
    if (capacity > zero) && (workers > zero) then pages / (capacity * workers)
    else zero in

  (* 3) months of rental *)
  let monthsNeeded :=
    if (workingDaysPerMonth > zero) && (daysNeeded > zero) then
      ceil (daysNeeded / workingDaysPerMonth)
    else zero in

  (* 4) rental *)
  let monthlyRentalPerWorker := scannerMonthly + pcMonthly in
  let rentalTotal := monthlyRentalPerWorker * workers * monthsNeeded in

  (* 5) labour *)
  let laborCost :=
    if LaborMode_eqb laborMode perPage then pages * laborPerPage
    else monthlySalaryPerWorker * workers * monthsNeeded in

  (* 6) other costs *)
  let officeCost := officePerJob in
  let baseCost := rentalTotal + laborCost + officeCost in

  (* 7) required revenue *)
  let required_guard :=
    (baseCost > zero) && (one - riskRate - gpRate > zero) && no_errors errors in
  let requiredRevenue_v := baseCost / (one - riskRate - gpRate) in
  let riskAmount_v := requiredRevenue_v * riskRate in
  let targetGPAmount_v := requiredRevenue_v * gpRate in
  let profitAfterRisk_v := requiredRevenue_v - baseCost - riskAmount_v in
  let requiredRevenue := if required_guard then Some requiredRevenue_v else None in
  let riskAmount := if required_guard then Some riskAmount_v else None in
  let targetGPAmount := if required_guard then Some targetGPAmount_v else None in
  let profitAfterRisk := if required_guard then Some profitAfterRisk_v else None in
  let requiredPricePerPage :=
    if required_guard then
      (if pages > zero then Some (requiredRevenue_v / pages) else None)
    else None in

  (* 8) trial price *)
  let trial_guard :=
    (trialPricePerPage > zero) && (pages > zero) && (baseCost > zero) in
  let trialRevenue_v := trialPricePerPage * pages in
  let trialRiskAmount_v := trialRevenue_v * riskRate in
  let trialProfit_v := trialRevenue_v - baseCost - trialRiskAmount_v in
  let trialRevenue := if trial_guard then Some trialRevenue_v else None in
  let trialRiskAmount := if trial_guard then Some trialRiskAmount_v else None in
  let trialProfit := if trial_guard then Some trialProfit_v else None in
  let trialGPPercent :=
    if trial_guard then
      (if trialRevenue_v !== zero then Some (trialProfit_v / trialRevenue_v)
       else None)
    else None in

  {| valid := no_errors errors;
     modeUsed := mode;
     workers := workers;
     daysNeeded := daysNeeded;
     monthsNeeded := monthsNeeded;
     monthlyRentalPerWorker := monthlyRentalPerWorker;
     rentalTotal := rentalTotal;
     laborCost := laborCost;
     officeCost := officeCost;
     baseCost := baseCost;
     requiredRevenue := requiredRevenue;
     requiredPricePerPage := requiredPricePerPage;
     riskAmount := riskAmount;
     targetGPAmount := targetGPAmount;
     profitAfterRisk := profitAfterRisk;
     trialRevenue := trialRevenue;
     trialRiskAmount := trialRiskAmount;
     trialProfit := trialProfit;
     trialGPPercent := trialGPPercent;
     errors := errors |}.

(** The state the page starts from ([useState<InputState>]). *)
Definition dec (n : Z) (d : positive) : number := Fin (Q2Qc (n # d)).

Definition initialInput : InputState :=
  {| pages := dec 20000 1;
     laborPerPage := dec 3 10;
     monthlySalaryPerWorker := dec 15000 1;
     scannerMonthly := dec 4500 1;
     pcMonthly := dec 3000 1;
     workingDaysPerMonth := dec 22 1;
     officePerJob := dec 10000 1;
     riskRate := dec 3 100;
     gpRate := dec 35 100;
     capacityPerPersonPerDay := dec 1500 1;
     workersManual := dec 1 1;
     deadlineDays := dec 30 1;
     trialPricePerPage := dec 15 10 |}.

(** ** The sanitized inputs and the two guards *)

(** The thirteen sanitized inputs that [calculate] binds first
    ([workersManual] before its [Math.max]). *)
Definition sanitize (i : InputState) : InputState :=
  {| pages := safeNumber i.(pages);
     laborPerPage := safeNumber i.(laborPerPage);
     monthlySalaryPerWorker := safeNumber i.(monthlySalaryPerWorker);
     scannerMonthly := safeNumber i.(scannerMonthly);
     pcMonthly := safeNumber i.(pcMonthly);
     workingDaysPerMonth := safeNumber i.(workingDaysPerMonth);
     officePerJob := safeNumber i.(officePerJob);
     riskRate := safeNumber i.(riskRate);
     gpRate := safeNumber i.(gpRate);
     capacityPerPersonPerDay := safeNumber i.(capacityPerPersonPerDay);
     workersManual := safeNumber i.(workersManual);
     deadlineDays := safeNumber i.(deadlineDays);
     trialPricePerPage := safeNumber i.(trialPricePerPage) |}.

(** The staffing test of step 1. *)
Definition deadline_driven (s : InputState) (m : Mode) : bool :=
  Mode_eqb m withDeadline && (s.(deadlineDays) > zero).

(** The guards of steps 7 and 8, over the sanitized inputs and the
    result. *)
Definition required_guard (s : InputState) (r : CalcResult) : bool :=
  (r.(baseCost) > zero) && (one - s.(riskRate) - s.(gpRate) > zero)
  && no_errors r.(errors).

Definition trial_guard (s : InputState) (r : CalcResult) : bool :=
  (s.(trialPricePerPage) > zero) && (s.(pages) > zero)
  && (r.(baseCost) > zero).

Definition is_some (A : Type) (o : option A) : bool :=
  match o with Some _ => true | None => false end.

Definition is_none (A : Type) (o : option A) : bool := negb (is_some o).

(** Some, all or none of the five required-revenue fields are set. *)
Definition required_populated (r : CalcResult) : bool :=
  is_some r.(requiredRevenue) || is_some r.(requiredPricePerPage)
  || is_some r.(riskAmount) || is_some r.(targetGPAmount)
  || is_some r.(profitAfterRisk).

Definition required_all_some (r : CalcResult) : bool :=
  is_some r.(requiredRevenue) && is_some r.(requiredPricePerPage)
  && is_some r.(riskAmount) && is_some r.(targetGPAmount)
  && is_some r.(profitAfterRisk).

Definition required_all_none (r : CalcResult) : bool :=
  is_none r.(requiredRevenue) && is_none r.(requiredPricePerPage)
  && is_none r.(riskAmount) && is_none r.(targetGPAmount)
  && is_none r.(profitAfterRisk).

(** All or none of the four trial fields are set. *)
Definition trial_all_some (r : CalcResult) : bool :=
  is_some r.(trialRevenue) && is_some r.(trialRiskAmount)
  && is_some r.(trialProfit) && is_some r.(trialGPPercent).

Definition trial_all_none (r : CalcResult) : bool :=
  is_none r.(trialRevenue) && is_none r.(trialRiskAmount)
  && is_none r.(trialProfit) && is_none r.(trialGPPercent).

(** ** Sample inputs *)

(** [{ ...input, field: v }] for the fields the examples change. *)
Definition with_gpRate (i : InputState) (v : number) : InputState :=
  mkInput i.(pages) i.(laborPerPage) i.(monthlySalaryPerWorker)
    i.(scannerMonthly) i.(pcMonthly) i.(workingDaysPerMonth)
    i.(officePerJob) i.(riskRate) v i.(capacityPerPersonPerDay)
    i.(workersManual) i.(deadlineDays) i.(trialPricePerPage).

Definition with_laborPerPage (i : InputState) (v : number) : InputState :=
  mkInput i.(pages) v i.(monthlySalaryPerWorker)
    i.(scannerMonthly) i.(pcMonthly) i.(workingDaysPerMonth)
    i.(officePerJob) i.(riskRate) i.(gpRate) i.(capacityPerPersonPerDay)
    i.(workersManual) i.(deadlineDays) i.(trialPricePerPage).

Definition with_workersManual (i : InputState) (v : number) : InputState :=
  mkInput i.(pages) i.(laborPerPage) i.(monthlySalaryPerWorker)
    i.(scannerMonthly) i.(pcMonthly) i.(workingDaysPerMonth)
    i.(officePerJob) i.(riskRate) i.(gpRate) i.(capacityPerPersonPerDay)
    v i.(deadlineDays) i.(trialPricePerPage).

Definition with_pages_capacity (i : InputState) (p c : number) : InputState :=
  mkInput p i.(laborPerPage) i.(monthlySalaryPerWorker)
    i.(scannerMonthly) i.(pcMonthly) i.(workingDaysPerMonth)
    i.(officePerJob) i.(riskRate) i.(gpRate) c
    i.(workersManual) i.(deadlineDays) i.(trialPricePerPage).

(** The scenario rows replace [pages] and [deadlineDays]. *)
Definition with_scenario (i : InputState) (p d : number) : InputState :=
  mkInput p i.(laborPerPage) i.(monthlySalaryPerWorker)
    i.(scannerMonthly) i.(pcMonthly) i.(workingDaysPerMonth)
    i.(officePerJob) i.(riskRate) i.(gpRate) i.(capacityPerPersonPerDay)
    i.(workersManual) d i.(trialPricePerPage).

(** A head count of two and a half, typed into the form. *)
Definition fractionalWorkersInput : InputState :=
  with_workersManual initialInput (dec 5 2).

(** No pages and a zero capacity. *)
Definition zeroCapacityInput : InputState :=
  with_pages_capacity initialInput zero zero.

(** The initial pages and a zero capacity. *)
Definition zeroCapacityPagesInput : InputState :=
  with_pages_capacity initialInput (dec 20000 1) zero.

(** A negative wage per page. *)
Definition negativeWageInput : InputState :=
  with_laborPerPage initialInput (dec (-3) 10).

(** Two inputs agree on every field but [gpRate]. *)
Definition differ_only_in_gpRate (a b : InputState) : Prop :=
  a.(pages) = b.(pages) /\ a.(laborPerPage) = b.(laborPerPage)
  /\ a.(monthlySalaryPerWorker) = b.(monthlySalaryPerWorker)
  /\ a.(scannerMonthly) = b.(scannerMonthly)
  /\ a.(pcMonthly) = b.(pcMonthly)
  /\ a.(workingDaysPerMonth) = b.(workingDaysPerMonth)
  /\ a.(officePerJob) = b.(officePerJob)
  /\ a.(riskRate) = b.(riskRate)
  /\ a.(capacityPerPersonPerDay) = b.(capacityPerPersonPerDay)
  /\ a.(workersManual) = b.(workersManual)
  /\ a.(deadlineDays) = b.(deadlineDays)
  /\ a.(trialPricePerPage) = b.(trialPricePerPage).

(** The reduced fraction of a finite number, for reading results. *)
Definition fraction (x : number) : option Q :=
  match x with Fin q => Some (this q) | _ => None end.

(** [{ ...input, riskRate: rk, gpRate: gp }]. *)
Definition with_rates (i : InputState) (rk gp : number) : InputState :=
  mkInput i.(pages) i.(laborPerPage) i.(monthlySalaryPerWorker)
    i.(scannerMonthly) i.(pcMonthly) i.(workingDaysPerMonth)
    i.(officePerJob) rk gp i.(capacityPerPersonPerDay)
    i.(workersManual) i.(deadlineDays) i.(trialPricePerPage).

(** [{ ...input, trialPricePerPage: v }]. *)
Definition with_trialPricePerPage (i : InputState) (v : number) : InputState :=
  mkInput i.(pages) i.(laborPerPage) i.(monthlySalaryPerWorker)
    i.(scannerMonthly) i.(pcMonthly) i.(workingDaysPerMonth)
    i.(officePerJob) i.(riskRate) i.(gpRate) i.(capacityPerPersonPerDay)
    i.(workersManual) i.(deadlineDays) v.

(** ** The page around the engine *)

(** A row of the scenario dashboard. *)
Module Sc.

Record Scenario : Type := mk {
  id : number;
  name : string;
  pages : number;
  deadlineDays : number
}.

End Sc.

(** The two fields a scenario row lets the user edit. *)
Inductive ScenarioField : Type := S_pages | S_deadlineDays.

(** [{ ...s, [field]: value }] on a scenario. *)
Definition set_scenario_field (field : ScenarioField) (value : number)
  (s : Sc.Scenario) : Sc.Scenario :=
  match field with
  | S_pages => Sc.mk s.(Sc.id) s.(Sc.name) value s.(Sc.deadlineDays)
  | S_deadlineDays => Sc.mk s.(Sc.id) s.(Sc.name) s.(Sc.pages) value
  end.

(** The scenarios the page starts from. *)
Definition initialScenarios : list Sc.Scenario :=
  [ Sc.mk (dec 1 1) "Scenario A" (dec 20000 1) (dec 30 1);
    Sc.mk (dec 2 1) "Scenario B" (dec 50000 1) (dec 45 1);
    Sc.mk (dec 3 1) "Scenario C" (dec 100000 1) (dec 60 1) ].

(** An element of [scenarioResults]: [{ scenario, result }]. *)
Record ScenarioResult : Type := mkScenarioResult {
  scenario : Sc.Scenario;
  result : CalcResult
}.

(** [scenarioResults]: one engine call per row, with the row's pages and
    deadline written over the form's. *)
Definition scenarioResults (scenarios : list Sc.Scenario) (input : InputState)
  (mode : Mode) (laborMode : LaborMode) : list ScenarioResult :=
  map (fun s =>
         {| scenario := s;
            result := calculate
                        (with_scenario input s.(Sc.pages) s.(Sc.deadlineDays))
                        mode laborMode |})
      scenarios.

(** [getGpPercent]: the gross profit shown in a scenario card, as a share
    of the required revenue. *)
Definition getGpPercent (res : CalcResult) : option number :=
  match res.(requiredRevenue), res.(profitAfterRisk) with
  | Some rr, Some par => if rr === zero then None else Some (par / rr)
  | _, _ => None
  end.

(** [keyof InputState]. *)
Inductive InputField : Type :=
| F_pages
| F_laborPerPage
| F_monthlySalaryPerWorker
| F_scannerMonthly
| F_pcMonthly
| F_workingDaysPerMonth
| F_officePerJob
| F_riskRate
| F_gpRate
| F_capacityPerPersonPerDay
| F_workersManual
| F_deadlineDays
| F_trialPricePerPage.

(** [i[field]]. *)
Definition get_field (field : InputField) (i : InputState) : number :=
  match field with
  | F_pages => i.(pages)
  | F_laborPerPage => i.(laborPerPage)
  | F_monthlySalaryPerWorker => i.(monthlySalaryPerWorker)
  | F_scannerMonthly => i.(scannerMonthly)
  | F_pcMonthly => i.(pcMonthly)
  | F_workingDaysPerMonth => i.(workingDaysPerMonth)
  | F_officePerJob => i.(officePerJob)
  | F_riskRate => i.(riskRate)
  | F_gpRate => i.(gpRate)
  | F_capacityPerPersonPerDay => i.(capacityPerPersonPerDay)
  | F_workersManual => i.(workersManual)
  | F_deadlineDays => i.(deadlineDays)
  | F_trialPricePerPage => i.(trialPricePerPage)
  end.

(** [{ ...prev, [field]: value }]. *)
Definition set_field (field : InputField) (value : number) (prev : InputState)
  : InputState :=
  match field with
  | F_pages =>
      mkInput value prev.(laborPerPage) prev.(monthlySalaryPerWorker)
        prev.(scannerMonthly) prev.(pcMonthly) prev.(workingDaysPerMonth)
        prev.(officePerJob) prev.(riskRate) prev.(gpRate)
        prev.(capacityPerPersonPerDay) prev.(workersManual)
        prev.(deadlineDays) prev.(trialPricePerPage)
  | F_laborPerPage =>
      mkInput prev.(pages) value prev.(monthlySalaryPerWorker)
        prev.(scannerMonthly) prev.(pcMonthly) prev.(workingDaysPerMonth)
        prev.(officePerJob) prev.(riskRate) prev.(gpRate)
        prev.(capacityPerPersonPerDay) prev.(workersManual)
        prev.(deadlineDays) prev.(trialPricePerPage)
  | F_monthlySalaryPerWorker =>
      mkInput prev.(pages) prev.(laborPerPage) value prev.(scannerMonthly)
        prev.(pcMonthly) prev.(workingDaysPerMonth) prev.(officePerJob)
        prev.(riskRate) prev.(gpRate) prev.(capacityPerPersonPerDay)
        prev.(workersManual) prev.(deadlineDays) prev.(trialPricePerPage)
  | F_scannerMonthly =>
      mkInput prev.(pages) prev.(laborPerPage) prev.(monthlySalaryPerWorker)
        value prev.(pcMonthly) prev.(workingDaysPerMonth)
        prev.(officePerJob) prev.(riskRate) prev.(gpRate)
        prev.(capacityPerPersonPerDay) prev.(workersManual)
        prev.(deadlineDays) prev.(trialPricePerPage)
  | F_pcMonthly =>
      mkInput prev.(pages) prev.(laborPerPage) prev.(monthlySalaryPerWorker)
        prev.(scannerMonthly) value prev.(workingDaysPerMonth)
        prev.(officePerJob) prev.(riskRate) prev.(gpRate)
        prev.(capacityPerPersonPerDay) prev.(workersManual)
        prev.(deadlineDays) prev.(trialPricePerPage)
  | F_workingDaysPerMonth =>
      mkInput prev.(pages) prev.(laborPerPage) prev.(monthlySalaryPerWorker)
        prev.(scannerMonthly) prev.(pcMonthly) value prev.(officePerJob)
        prev.(riskRate) prev.(gpRate) prev.(capacityPerPersonPerDay)
        prev.(workersManual) prev.(deadlineDays) prev.(trialPricePerPage)
  | F_officePerJob =>
      mkInput prev.(pages) prev.(laborPerPage) prev.(monthlySalaryPerWorker)
        prev.(scannerMonthly) prev.(pcMonthly) prev.(workingDaysPerMonth)
        value prev.(riskRate) prev.(gpRate) prev.(capacityPerPersonPerDay)
        prev.(workersManual) prev.(deadlineDays) prev.(trialPricePerPage)
  | F_riskRate =>
      mkInput prev.(pages) prev.(laborPerPage) prev.(monthlySalaryPerWorker)
        prev.(scannerMonthly) prev.(pcMonthly) prev.(workingDaysPerMonth)
        prev.(officePerJob) value prev.(gpRate)
        prev.(capacityPerPersonPerDay) prev.(workersManual)
        prev.(deadlineDays) prev.(trialPricePerPage)
  | F_gpRate =>
      mkInput prev.(pages) prev.(laborPerPage) prev.(monthlySalaryPerWorker)
        prev.(scannerMonthly) prev.(pcMonthly) prev.(workingDaysPerMonth)
        prev.(officePerJob) prev.(riskRate) value
        prev.(capacityPerPersonPerDay) prev.(workersManual)
        prev.(deadlineDays) prev.(trialPricePerPage)
  | F_capacityPerPersonPerDay =>
      mkInput prev.(pages) prev.(laborPerPage) prev.(monthlySalaryPerWorker)
        prev.(scannerMonthly) prev.(pcMonthly) prev.(workingDaysPerMonth)
        prev.(officePerJob) prev.(riskRate) prev.(gpRate) value
        prev.(workersManual) prev.(deadlineDays) prev.(trialPricePerPage)
  | F_workersManual =>
      mkInput prev.(pages) prev.(laborPerPage) prev.(monthlySalaryPerWorker)
        prev.(scannerMonthly) prev.(pcMonthly) prev.(workingDaysPerMonth)
        prev.(officePerJob) prev.(riskRate) prev.(gpRate)
        prev.(capacityPerPersonPerDay) value prev.(deadlineDays)
        prev.(trialPricePerPage)
  | F_deadlineDays =>
      mkInput prev.(pages) prev.(laborPerPage) prev.(monthlySalaryPerWorker)
        prev.(scannerMonthly) prev.(pcMonthly) prev.(workingDaysPerMonth)
        prev.(officePerJob) prev.(riskRate) prev.(gpRate)
        prev.(capacityPerPersonPerDay) prev.(workersManual) value
        prev.(trialPricePerPage)
  | F_trialPricePerPage =>
      mkInput prev.(pages) prev.(laborPerPage) prev.(monthlySalaryPerWorker)
        prev.(scannerMonthly) prev.(pcMonthly) prev.(workingDaysPerMonth)
        prev.(officePerJob) prev.(riskRate) prev.(gpRate)
        prev.(capacityPerPersonPerDay) prev.(workersManual)
        prev.(deadlineDays) value
  end.

Section Handlers.

(** The conversion [Number(text)] of the text of an input box. *)
Variable Number : string -> number.

(** [value === "" ? 0 : Number(value)]. *)
Definition box_value (value : string) : number :=
  if String.eqb value "" then zero else Number value.

(** [handleChangeNumber(field)]: the state update made when the box of
    [field] shows [value]. *)
Definition handleChangeNumber (field : InputField) (value : string)
  (prev : InputState) : InputState :=
  set_field field (box_value value) prev.

(** [handleScenarioChange(id, field)]: the update of the scenario list
    when a box of row [id] shows [value]. *)
Definition handleScenarioChange (id : number) (field : ScenarioField)
  (value : string) (prev : list Sc.Scenario) : list Sc.Scenario :=
  map (fun s =>
         if s.(Sc.id) === id then set_scenario_field field (box_value value) s
         else s)
      prev.

End Handlers.

(** ** The first version of the engine

    The earlier page has no labour mode: the labour cost is always paid per
    page and the input has no monthly salary. *)

Module V1.

Record InputState : Type := mkInput {
  pages : number;
  laborPerPage : number;
  scannerMonthly : number;
  pcMonthly : number;
  workingDaysPerMonth : number;
  officePerJob : number;
  riskRate : number;
  gpRate : number;
  capacityPerPersonPerDay : number;
  workersManual : number;
  deadlineDays : number;
  trialPricePerPage : number
}.

Definition calculate (input : InputState) (mode : Mode) : CalcResult :=
  let errors0 : list string := [] in

  let pages := safeNumber input.(pages) in
  let laborPerPage := safeNumber input.(laborPerPage) in
  let scannerMonthly := safeNumber input.(scannerMonthly) in
  let pcMonthly := safeNumber input.(pcMonthly) in
  let workingDaysPerMonth := safeNumber input.(workingDaysPerMonth) in
  let officePerJob := safeNumber input.(officePerJob) in
  let riskRate := safeNumber input.(riskRate) in
  let gpRate := safeNumber input.(gpRate) in
  let capacity := safeNumber input.(capacityPerPersonPerDay) in
  let workersManual := max one (safeNumber input.(workersManual)) in
  let deadlineDays := safeNumber input.(deadlineDays) in
  let trialPricePerPage := safeNumber input.(trialPricePerPage) in

  let errors1 := push_if (pages <= zero) msg_pages errors0 in
  let errors2 := push_if (capacity <= zero) msg_capacity errors1 in
  let errors3 := push_if (workingDaysPerMonth <= zero) msg_workingDays errors2 in
  let errors := push_if (one - riskRate - gpRate <= zero) msg_rates errors3 in

  (* 1) head count *)
  let workers :=
    if Mode_eqb mode withDeadline && (deadlineDays > zero) then
      let rawWorkers := pages / (capacity * deadlineDays) in
      max one (ceil rawWorkers)
    else workersManual in

  (* 2) working days *)
  let daysNeeded :=
    if (capacity > zero) && (workers > zero) then pages / (capacity * workers)
    else zero in

  (* 3) months of rental *)
  let monthsNeeded :=
    if (workingDaysPerMonth > zero) && (daysNeeded > zero) then
      ceil (daysNeeded / workingDaysPerMonth)
    else zero in

  (* 4) rental *)
  let monthlyRentalPerWorker := scannerMonthly + pcMonthly in
  let rentalTotal := monthlyRentalPerWorker * workers * monthsNeeded in

  (* 5) other costs *)
  let laborCost := pages * laborPerPage in
  let officeCost := officePerJob in
  let baseCost := rentalTotal + laborCost + officeCost in

  (* 6) required revenue *)
  let required_guard :=
    (baseCost > zero) && (one - riskRate - gpRate > zero) && no_errors errors in
  let requiredRevenue_v := baseCost / (one - riskRate - gpRate) in
  let riskAmount_v := requiredRevenue_v * riskRate in
  let targetGPAmount_v := requiredRevenue_v * gpRate in
  let profitAfterRisk_v := requiredRevenue_v - baseCost - riskAmount_v in
  let requiredRevenue := if required_guard then Some requiredRevenue_v else None in
  let riskAmount := if required_guard then Some riskAmount_v else None in
  let targetGPAmount := if required_guard then Some targetGPAmount_v else None in
  let profitAfterRisk := if required_guard then Some profitAfterRisk_v else None in
  let requiredPricePerPage :=
    if required_guard then
      (if pages > zero then Some (requiredRevenue_v / pages) else None)
    else None in

  (* 7) trial price *)
  let trial_guard :=
    (trialPricePerPage > zero) && (pages > zero) && (baseCost > zero) in
  let trialRevenue_v := trialPricePerPage * pages in
  let trialRiskAmount_v := trialRevenue_v * riskRate in
  let trialProfit_v := trialRevenue_v - baseCost - trialRiskAmount_v in
  let trialRevenue := if trial_guard then Some trialRevenue_v else None in
  let trialRiskAmount := if trial_guard then Some trialRiskAmount_v else None in
  let trialProfit := if trial_guard then Some trialProfit_v else None in
  let trialGPPercent :=
    if trial_guard then
      (if trialRevenue_v !== zero then Some (trialProfit_v / trialRevenue_v)
       else None)
    else None in

  {| valid := no_errors errors;
     modeUsed := mode;
     workers := workers;
     daysNeeded := daysNeeded;
     monthsNeeded := monthsNeeded;
     monthlyRentalPerWorker := monthlyRentalPerWorker;
     rentalTotal := rentalTotal;
     laborCost := laborCost;
     officeCost := officeCost;
     baseCost := baseCost;
     requiredRevenue := requiredRevenue;
     requiredPricePerPage := requiredPricePerPage;
     riskAmount := riskAmount;
     targetGPAmount := targetGPAmount;
     profitAfterRisk := profitAfterRisk;
     trialRevenue := trialRevenue;
     trialRiskAmount := trialRiskAmount;
     trialProfit := trialProfit;
     trialGPPercent := trialGPPercent;
     errors := errors |}.

End V1.

(** The input of the first version that an input of the current one
    carries: every field but the monthly salary. *)
Definition without_salary (i : InputState) : V1.InputState :=
  V1.mkInput i.(pages) i.(laborPerPage) i.(scannerMonthly) i.(pcMonthly)
    i.(workingDaysPerMonth) i.(officePerJob) i.(riskRate) i.(gpRate)
    i.(capacityPerPersonPerDay) i.(workersManual) i.(deadlineDays) i.(trialPricePerPage).

(** [{ ...input, monthlySalaryPerWorker: v }] and
    [{ ...input, deadlineDays: v }]. *)
Definition with_monthlySalaryPerWorker (i : InputState) (v : number)
  : InputState := set_field F_monthlySalaryPerWorker v i.

Definition with_deadlineDays (i : InputState) (v : number) : InputState :=
  set_field F_deadlineDays v i.

(** ** Views of a result *)

(** The result with its four trial fields blanked. *)
Definition without_trial (r : CalcResult) : CalcResult :=
  mkResult r.(valid) r.(modeUsed) r.(workers) r.(daysNeeded) r.(monthsNeeded)
    r.(monthlyRentalPerWorker) r.(rentalTotal) r.(laborCost) r.(officeCost)
    r.(baseCost) r.(requiredRevenue) r.(requiredPricePerPage) r.(riskAmount)
    r.(targetGPAmount) r.(profitAfterRisk) None None None None r.(errors).

(** [{ ...res, modeUsed: m }]. *)
Definition with_modeUsed (r : CalcResult) (m : Mode) : CalcResult :=
  mkResult r.(valid) m r.(workers) r.(daysNeeded) r.(monthsNeeded)
    r.(monthlyRentalPerWorker) r.(rentalTotal) r.(laborCost) r.(officeCost)
    r.(baseCost) r.(requiredRevenue) r.(requiredPricePerPage) r.(riskAmount)
    r.(targetGPAmount) r.(profitAfterRisk) r.(trialRevenue)
    r.(trialRiskAmount) r.(trialProfit) r.(trialGPPercent) r.(errors).

(** Equality of field names is decidable. *)
Definition InputField_eq_dec (a b : InputField) : {a = b} + {a <> b}.
Proof. decide equality. Defined.


(** ** Facts about [number] *)

Section NumFacts.

Local Open Scope Qc_scope.

Lemma Qc_ltb_true (a b : Qc) : Qc_ltb a b = true <-> a < b.
Proof.
  unfold Qc_ltb. rewrite Qclt_alt.
  destruct (a ?= b); split; congruence.
Qed.

Lemma Qc_eqb_true (a b : Qc) : Qc_eqb a b = true <-> a = b.
Proof.
  unfold Qc_eqb. rewrite Qceq_alt.
  destruct (a ?= b); split; congruence.
Qed.

Lemma Qc_eqb_false (a b : Qc) : Qc_eqb a b = false <-> a <> b.
Proof.
  rewrite <- Qc_eqb_true. destruct (Qc_eqb a b); split; congruence.
Qed.

Lemma Qc_ltb_false (a b : Qc) : Qc_ltb a b = false <-> b <= a.
Proof.
  split; intros H.
  - apply Qcnot_lt_le. intros L. apply Qc_ltb_true in L. congruence.
  - destruct (Qc_ltb a b) eqn:E; trivial.
    apply Qc_ltb_true in E. now apply Qcle_not_lt in H.
Qed.

Lemma Qc_ltb_irrefl (a : Qc) : Qc_ltb a a = false.
Proof. apply Qc_ltb_false, Qcle_refl. Qed.

Lemma Qc_eqb_refl (a : Qc) : Qc_eqb a a = true.
Proof. now apply Qc_eqb_true. Qed.

Lemma val_zero_of (s : bool) : val (zero_of s) = 0.
Proof. now destruct s. Qed.

Lemma finite_zero_of (s : bool) : is_finite (zero_of s) = true.
Proof. now destruct s. Qed.

Lemma is_zero_val (x : number) :
  is_finite x = true -> is_zero x = Qc_eqb (val x) 0.
Proof. destruct x; simpl; congruence || trivial. Qed.

Lemma finite_not_nan (x : number) : is_finite x = true -> is_nan x = false.
Proof. now destruct x. Qed.

Lemma finite_not_inf (x : number) : is_finite x = true -> is_inf x = false.
Proof. now destruct x. Qed.

(** Comparisons of finite numbers are comparisons of their values. *)
Lemma ltb_val (x y : number) :
  is_finite x = true -> is_finite y = true -> ltb x y = Qc_ltb (val x) (val y).
Proof. destruct x, y; simpl; congruence || trivial. Qed.

Lemma eqb_val (x y : number) :
  is_finite x = true -> is_finite y = true -> eqb x y = Qc_eqb (val x) (val y).
Proof. destruct x, y; simpl; congruence || trivial. Qed.

Lemma gtb_zero_val (x : number) :
  is_finite x = true -> gtb x zero = Qc_ltb 0 (val x).
Proof. intros H. unfold gtb. now rewrite ltb_val. Qed.

(** On a finite number, [x <= 0] fails exactly when [x > 0] holds. *)
Lemma leb_zero_gtb (x : number) :
  is_finite x = true -> leb x zero = negb (gtb x zero).
Proof.
  intros H. unfold leb. rewrite gtb_zero_val, ltb_val, eqb_val by trivial.
  change (val zero) with 0.
  destruct (Qc_dec (val x) 0) as [[L | G] | E].
  - assert (Qc_ltb (val x) 0 = true) as -> by now apply Qc_ltb_true.
    assert (Qc_ltb 0 (val x) = false) as ->
      by now apply Qc_ltb_false, Qclt_le_weak.
    reflexivity.
  - assert (Qc_ltb 0 (val x) = true) as -> by now apply Qc_ltb_true.
    assert (Qc_ltb (val x) 0 = false) as ->
      by now apply Qc_ltb_false, Qclt_le_weak.
    assert (Qc_eqb (val x) 0 = false) as ->.
    { apply Qc_eqb_false. intros E. rewrite E in G.
      now apply Qclt_not_eq in G. }
    reflexivity.
  - rewrite E. now rewrite !Qc_ltb_irrefl, Qc_eqb_refl.
Qed.

Lemma gtb_zero_pos (x : number) :
  is_finite x = true -> gtb x zero = true -> 0 < val x.
Proof. intros H G. rewrite gtb_zero_val in G by trivial. now apply Qc_ltb_true. Qed.

Lemma pos_not_zero (x : number) :
  is_finite x = true -> gtb x zero = true -> is_zero x = false.
Proof.
  intros H G. rewrite is_zero_val by trivial. apply Qc_eqb_false.
  intros E. apply gtb_zero_pos in G; trivial. rewrite E in G.
  now apply Qclt_not_eq in G.
Qed.

(** [safeNumber] always returns a finite number. *)
Lemma safeNumber_finite (x : number) : is_finite (safeNumber x) = true.
Proof. now destruct x. Qed.

(** Finite numbers are closed under the arithmetic of the engine, which
    then agrees with the arithmetic of the rationals. *)
Lemma neg_finite (x : number) :
  is_finite x = true -> is_finite (neg x) = true /\ val (neg x) = - val x.
Proof.
  destruct x; simpl; try congruence; intros _.
  - split; reflexivity.
  - destruct (Qc_eqb q 0) eqn:E; simpl; split; trivial.
    apply Qc_eqb_true in E. subst q. reflexivity.
Qed.

Lemma add_finite (x y : number) :
  is_finite x = true -> is_finite y = true ->
  is_finite (add x y) = true /\ val (add x y) = val x + val y.
Proof.
  destruct x, y; simpl; try congruence; intros _ _; split; trivial.
  - now rewrite Qcplus_0_l.
  - now rewrite Qcplus_0_r.
Qed.

Lemma sub_finite (x y : number) :
  is_finite x = true -> is_finite y = true ->
  is_finite (sub x y) = true /\ val (sub x y) = val x - val y.
Proof.
  intros Hx Hy. destruct (neg_finite y Hy) as [Hn Vn].
  destruct (add_finite x (neg y) Hx Hn) as [Ha Va].
  unfold sub. split; trivial. now rewrite Va, Vn.
Qed.

Lemma mul_finite (x y : number) :
  is_finite x = true -> is_finite y = true ->
  is_finite (mul x y) = true /\ val (mul x y) = val x * val y.
Proof.
  intros Hx Hy. unfold mul.
  rewrite (finite_not_nan x Hx), (finite_not_nan y Hy),
    (finite_not_inf x Hx), (finite_not_inf y Hy),
    (is_zero_val x Hx), (is_zero_val y Hy). simpl.
  destruct (Qc_eqb (val x) 0) eqn:Ex; simpl.
  - apply Qc_eqb_true in Ex. rewrite Ex, Qcmult_0_l.
    split; [apply finite_zero_of | apply val_zero_of].
  - destruct (Qc_eqb (val y) 0) eqn:Ey; simpl.
    + apply Qc_eqb_true in Ey. rewrite Ey, Qcmult_0_r.
      split; [apply finite_zero_of | apply val_zero_of].
    + split; reflexivity.
Qed.

Lemma div_finite (x y : number) :
  is_finite x = true -> is_finite y = true -> is_zero y = false ->
  is_finite (div x y) = true /\ val (div x y) = val x / val y.
Proof.
  intros Hx Hy Hz. unfold div.
  rewrite (finite_not_nan x Hx), (finite_not_nan y Hy),
    (finite_not_inf x Hx), (finite_not_inf y Hy), Hz,
    (is_zero_val x Hx). simpl.
  destruct (Qc_eqb (val x) 0) eqn:Ex; simpl.
  - apply Qc_eqb_true in Ex. rewrite Ex. unfold Qcdiv. rewrite Qcmult_0_l.
    split; [apply finite_zero_of | apply val_zero_of].
  - split; reflexivity.
Qed.

Lemma ceil_finite (x : number) :
  is_finite x = true -> is_finite (ceil x) = true.
Proof.
  destruct x; simpl; try congruence; intros _.
  now destruct (Z.eqb (Qceiling q) 0 && Qc_ltb q 0).
Qed.

Lemma Q2Qc_inject_Z_den (z : Z) : Qden (Q2Qc (inject_Z z)) = 1%positive.
Proof.
  change (Qden (Qred (inject_Z z)) = 1%positive).
  rewrite Qred_identity; trivial. apply Z.gcd_1_r.
Qed.

(** [Math.ceil] of a finite number is an integer. *)
Lemma ceil_integer (x : number) :
  is_finite x = true -> is_integer (ceil x) = true.
Proof.
  destruct x; simpl; try congruence; intros _.
  destruct (Z.eqb (Qceiling q) 0 && Qc_ltb q 0); trivial.
  unfold is_integer. rewrite Q2Qc_inject_Z_den. reflexivity.
Qed.

(** [Math.max(1, y)] on a finite [y] is 1 or is [y], the latter only
    when [1 < y]. *)
Lemma max_one_cases (y : number) :
  is_finite y = true ->
  max one y = one \/ (max one y = y /\ ltb one y = true).
Proof.
  intros Hy. unfold max.
  rewrite (finite_not_nan y Hy).
  change (is_nan one || false) with false. cbv iota.
  destruct (ltb one y) eqn:L; [now right|].
  destruct (ltb y one); now left.
Qed.

Lemma max_one_finite (y : number) :
  is_finite y = true -> is_finite (max one y) = true.
Proof.
  intros Hy. destruct (max_one_cases y Hy) as [-> | [-> _]]; trivial.
Qed.

Lemma max_one_geb (y : number) :
  is_finite y = true -> geb (max one y) one = true.
Proof.
  intros Hy. unfold geb, leb.
  destruct (max_one_cases y Hy) as [-> | [-> L]].
  - reflexivity.
  - now rewrite L.
Qed.

Lemma max_one_integer (y : number) :
  is_finite y = true -> is_integer y = true -> is_integer (max one y) = true.
Proof.
  intros Hy Hi. destruct (max_one_cases y Hy) as [-> | [-> _]]; trivial.
Qed.

Lemma max_one_pos (y : number) :
  is_finite y = true -> gtb (max one y) zero = true.
Proof.
  intros Hy. pose proof (max_one_finite y Hy) as Hf.
  rewrite gtb_zero_val by trivial. apply Qc_ltb_true.
  destruct (max_one_cases y Hy) as [-> | [-> L]].
  - now apply Qc_ltb_true.
  - rewrite ltb_val in L by trivial. apply Qc_ltb_true in L.
    apply Qclt_trans with (y := 1); trivial. now apply Qc_ltb_true.
Qed.

(** The algebra of cost-plus pricing on revenue: what is left of the
    revenue [b / (1 - rk - gp)] after the cost [b] and the risk share is
    the gross-profit share. *)
Lemma cost_plus_identity (b rk gp : number) :
  is_finite b = true -> is_finite rk = true -> is_finite gp = true ->
  gtb (sub (sub one rk) gp) zero = true ->
  let rr := div b (sub (sub one rk) gp) in
  let p := sub (sub rr b) (mul rr rk) in
  let g := mul rr gp in
  is_finite p = true /\ is_finite g = true /\ val p = val g.
Proof.
  intros Fb Fr Fg D rr p g. subst rr p g.
  destruct (sub_finite one rk eq_refl Fr) as [F1 V1].
  destruct (sub_finite _ gp F1 Fg) as [Fd Vd].
  pose proof (pos_not_zero _ Fd D) as Z.
  destruct (div_finite b _ Fb Fd Z) as [FR VR].
  destruct (mul_finite _ rk FR Fr) as [Fk Vk].
  destruct (mul_finite _ gp FR Fg) as [Ft Vt].
  destruct (sub_finite _ b FR Fb) as [F2 V2].
  destruct (sub_finite _ _ F2 Fk) as [Fp Vp].
  split; [exact Fp|]. split; [exact Ft|].
  rewrite Vp, V2, Vk, Vt, VR, Vd, V1.
  change (val one) with 1.
  rewrite is_zero_val, Vd, V1 in Z by trivial.
  apply Qc_eqb_false in Z. change (val one) with 1 in Z.
  field. exact Z.
Qed.

End NumFacts.

(** ** Reading the result field by field *)

Section Fields.

Variables (i : InputState) (m : Mode) (l : LaborMode).

Local Abbreviation r := (calculate i m l).
Local Abbreviation s := (sanitize i).

Lemma errors_eq :
  r.(errors) =
  push_if (one - s.(riskRate) - s.(gpRate) <= zero) msg_rates
    (push_if (s.(workingDaysPerMonth) <= zero) msg_workingDays
       (push_if (s.(capacityPerPersonPerDay) <= zero) msg_capacity
          (push_if (s.(pages) <= zero) msg_pages []))).
Proof. reflexivity. Qed.

Lemma valid_eq : r.(valid) = no_errors r.(errors).
Proof. reflexivity. Qed.

Lemma workers_eq :
  r.(workers) =
  if deadline_driven s m then
    max one (ceil (s.(pages) / (s.(capacityPerPersonPerDay) * s.(deadlineDays))))
  else max one s.(workersManual).
Proof. reflexivity. Qed.

Lemma daysNeeded_eq :
  r.(daysNeeded) =
  if (s.(capacityPerPersonPerDay) > zero) && (r.(workers) > zero) then
    s.(pages) / (s.(capacityPerPersonPerDay) * r.(workers))
  else zero.
Proof. reflexivity. Qed.

Lemma monthsNeeded_eq :
  r.(monthsNeeded) =
  if (s.(workingDaysPerMonth) > zero) && (r.(daysNeeded) > zero) then
    ceil (r.(daysNeeded) / s.(workingDaysPerMonth))
  else zero.
Proof. reflexivity. Qed.

Lemma monthlyRentalPerWorker_eq :
  r.(monthlyRentalPerWorker) = s.(scannerMonthly) + s.(pcMonthly).
Proof. reflexivity. Qed.

Lemma rentalTotal_eq :
  r.(rentalTotal) = r.(monthlyRentalPerWorker) * r.(workers) * r.(monthsNeeded).
Proof. reflexivity. Qed.

Lemma laborCost_eq :
  r.(laborCost) =
  if LaborMode_eqb l perPage then s.(pages) * s.(laborPerPage)
  else s.(monthlySalaryPerWorker) * r.(workers) * r.(monthsNeeded).
Proof. reflexivity. Qed.

Lemma officeCost_eq : r.(officeCost) = s.(officePerJob).
Proof. reflexivity. Qed.

Lemma baseCost_eq :
  r.(baseCost) = r.(rentalTotal) + r.(laborCost) + r.(officeCost).
Proof. reflexivity. Qed.

Lemma requiredRevenue_eq :
  r.(requiredRevenue) =
  if required_guard s r then
    Some (r.(baseCost) / (one - s.(riskRate) - s.(gpRate)))
  else None.
Proof. reflexivity. Qed.

Lemma riskAmount_eq :
  r.(riskAmount) =
  if required_guard s r then
    Some (r.(baseCost) / (one - s.(riskRate) - s.(gpRate)) * s.(riskRate))
  else None.
Proof. reflexivity. Qed.

Lemma targetGPAmount_eq :
  r.(targetGPAmount) =
  if required_guard s r then
    Some (r.(baseCost) / (one - s.(riskRate) - s.(gpRate)) * s.(gpRate))
  else None.
Proof. reflexivity. Qed.

Lemma profitAfterRisk_eq :
  r.(profitAfterRisk) =
  if required_guard s r then
    Some (r.(baseCost) / (one - s.(riskRate) - s.(gpRate)) - r.(baseCost)
          - r.(baseCost) / (one - s.(riskRate) - s.(gpRate)) * s.(riskRate))
  else None.
Proof. reflexivity. Qed.

Lemma requiredPricePerPage_eq :
  r.(requiredPricePerPage) =
  if required_guard s r then
    if s.(pages) > zero then
      Some (r.(baseCost) / (one - s.(riskRate) - s.(gpRate)) / s.(pages))
    else None
  else None.
Proof. reflexivity. Qed.

Lemma trialRevenue_eq :
  r.(trialRevenue) =
  if trial_guard s r then Some (s.(trialPricePerPage) * s.(pages)) else None.
Proof. reflexivity. Qed.

Lemma trialRiskAmount_eq :
  r.(trialRiskAmount) =
  if trial_guard s r then
    Some (s.(trialPricePerPage) * s.(pages) * s.(riskRate))
  else None.
Proof. reflexivity. Qed.

Lemma trialProfit_eq :
  r.(trialProfit) =
  if trial_guard s r then
    Some (s.(trialPricePerPage) * s.(pages) - r.(baseCost)
          - s.(trialPricePerPage) * s.(pages) * s.(riskRate))
  else None.
Proof. reflexivity. Qed.

Lemma trialGPPercent_eq :
  r.(trialGPPercent) =
  if trial_guard s r then
    if s.(trialPricePerPage) * s.(pages) !== zero then
      Some ((s.(trialPricePerPage) * s.(pages) - r.(baseCost)
             - s.(trialPricePerPage) * s.(pages) * s.(riskRate))
            / (s.(trialPricePerPage) * s.(pages)))
    else None
  else None.
Proof. reflexivity. Qed.

End Fields.

(** ** Validation and finiteness *)

Section Pipeline.

Variables (i : InputState) (m : Mode) (l : LaborMode).

Local Abbreviation r := (calculate i m l).
Local Abbreviation s := (sanitize i).

Lemma no_errors_push_if (c : bool) (msg : string) (errs : list string) :
  no_errors (push_if c msg errs) = negb c && no_errors errs.
Proof.
  unfold push_if, no_errors. destruct c; simpl; trivial.
  rewrite length_app. simpl. rewrite Nat.add_comm. reflexivity.
Qed.

Lemma rates_finite :
  is_finite (one - s.(riskRate) - s.(gpRate)) = true.
Proof.
  apply sub_finite; [apply sub_finite|]; trivial; apply safeNumber_finite.
Qed.

(** The result is valid exactly when the four checked quantities are
    positive. *)
Lemma no_errors_eq :
  no_errors r.(errors) =
  (s.(pages) > zero) && (s.(capacityPerPersonPerDay) > zero)
  && (s.(workingDaysPerMonth) > zero)
  && (one - s.(riskRate) - s.(gpRate) > zero).
Proof.
  rewrite errors_eq, !no_errors_push_if.
  rewrite !leb_zero_gtb, !negb_involutive
    by (apply rates_finite || apply safeNumber_finite).
  change (no_errors []) with true.
  destruct (s.(pages) > zero), (s.(capacityPerPersonPerDay) > zero),
    (s.(workingDaysPerMonth) > zero),
    (one - s.(riskRate) - s.(gpRate) > zero); reflexivity.
Qed.

(** The quotient of the deadline formula is finite as soon as the capacity
    is not a zero. *)
Lemma rawWorkers_finite :
  deadline_driven s m = true ->
  is_zero s.(capacityPerPersonPerDay) = false ->
  is_finite (s.(pages) / (s.(capacityPerPersonPerDay) * s.(deadlineDays)))
  = true.
Proof.
  intros D H. apply andb_prop in D. destruct D as [_ D].
  destruct (mul_finite s.(capacityPerPersonPerDay) s.(deadlineDays))
    as [F V]; try apply safeNumber_finite.
  apply div_finite; trivial; try apply safeNumber_finite.
  rewrite is_zero_val, V by trivial. apply Qc_eqb_false. intros E.
  apply Qcmult_integral in E. destruct E as [E | E].
  - rewrite is_zero_val in H by apply safeNumber_finite.
    apply Qc_eqb_false in H. contradiction.
  - apply pos_not_zero in D; try apply safeNumber_finite.
    rewrite is_zero_val in D by apply safeNumber_finite.
    apply Qc_eqb_false in D. contradiction.
Qed.

(** Step 1 yields a finite head count unless the deadline formula divides
    by a zero capacity. *)
Lemma workers_finite :
  deadline_driven s m && is_zero s.(capacityPerPersonPerDay) = false ->
  is_finite r.(workers) = true.
Proof.
  intros H. rewrite workers_eq.
  destruct (deadline_driven s m) eqn:D.
  - simpl in H. now apply max_one_finite, ceil_finite, rawWorkers_finite.
  - apply max_one_finite, safeNumber_finite.
Qed.

Lemma daysNeeded_finite :
  is_finite r.(workers) = true -> is_finite r.(daysNeeded) = true.
Proof.
  intros W. rewrite daysNeeded_eq.
  destruct ((s.(capacityPerPersonPerDay) > zero) && (r.(workers) > zero))
    eqn:G; trivial.
  apply andb_prop in G. destruct G as [C P].
  destruct (mul_finite s.(capacityPerPersonPerDay) r.(workers))
    as [F V]; trivial; try apply safeNumber_finite.
  apply div_finite; trivial; try apply safeNumber_finite.
  rewrite is_zero_val, V by trivial. apply Qc_eqb_false. intros E.
  apply Qcmult_integral in E. destruct E as [E | E].
  - apply pos_not_zero in C; try apply safeNumber_finite.
    rewrite is_zero_val in C by apply safeNumber_finite.
    apply Qc_eqb_false in C. contradiction.
  - apply pos_not_zero in P; trivial.
    rewrite is_zero_val in P by trivial.
    apply Qc_eqb_false in P. contradiction.
Qed.

Lemma monthsNeeded_finite :
  is_finite r.(workers) = true -> is_finite r.(monthsNeeded) = true.
Proof.
  intros W. pose proof (daysNeeded_finite W) as D. rewrite monthsNeeded_eq.
  destruct ((s.(workingDaysPerMonth) > zero) && (r.(daysNeeded) > zero))
    eqn:G; trivial.
  apply andb_prop in G. destruct G as [C _].
  apply ceil_finite, div_finite; trivial; try apply safeNumber_finite.
  apply pos_not_zero; trivial; apply safeNumber_finite.
Qed.

Lemma baseCost_finite :
  is_finite r.(workers) = true -> is_finite r.(baseCost) = true.
Proof.
  intros W. pose proof (monthsNeeded_finite W) as M.
  rewrite baseCost_eq.
  apply add_finite; [apply add_finite|].
  - rewrite rentalTotal_eq, monthlyRentalPerWorker_eq.
    apply mul_finite; trivial. apply mul_finite; trivial.
    apply add_finite; apply safeNumber_finite.
  - rewrite laborCost_eq. destruct (LaborMode_eqb l perPage).
    + apply mul_finite; apply safeNumber_finite.
    + apply mul_finite; trivial. apply mul_finite; trivial.
      apply safeNumber_finite.
  - rewrite officeCost_eq. apply safeNumber_finite.
Qed.

(** A zero capacity is always reported. *)
Lemma zero_capacity_invalid :
  is_zero s.(capacityPerPersonPerDay) = true -> r.(valid) = false.
Proof.
  intros Z. rewrite valid_eq, no_errors_eq.
  rewrite is_zero_val in Z by apply safeNumber_finite.
  apply Qc_eqb_true in Z.
  rewrite (gtb_zero_val s.(capacityPerPersonPerDay))
    by apply safeNumber_finite.
  rewrite Z, Qc_ltb_irrefl.
  now rewrite andb_false_r.
Qed.

(** A valid result has a finite cost basis. *)
Lemma valid_baseCost_finite :
  no_errors r.(errors) = true -> is_finite r.(baseCost) = true.
Proof.
  intros V. rewrite no_errors_eq in V.
  apply andb_prop in V. destruct V as [V _].
  apply andb_prop in V. destruct V as [V _].
  apply andb_prop in V. destruct V as [_ C].
  apply baseCost_finite, workers_finite.
  pose proof (pos_not_zero s.(capacityPerPersonPerDay)
                (safeNumber_finite _) C) as Z.
  rewrite Z. apply andb_false_r.
Qed.

End Pipeline.

(** ** Gates of the two optional groups *)

Section Gates.

Variables (i : InputState) (m : Mode) (l : LaborMode).

Local Abbreviation r := (calculate i m l).
Local Abbreviation s := (sanitize i).

(** The required-revenue guard implies a positive page count, so the inner
    [if (pages > 0)] of step 7 never fails under it. *)
Lemma required_guard_pages :
  required_guard s r = true -> (s.(pages) > zero) = true.
Proof.
  unfold required_guard. intros G.
  apply andb_prop in G. destruct G as [_ V].
  rewrite no_errors_eq in V.
  apply andb_prop in V. destruct V as [V _].
  apply andb_prop in V. destruct V as [V _].
  apply andb_prop in V. now destruct V as [V _].
Qed.

(** Under the trial guard the trial revenue is a non-zero number, so the
    inner [if (trialRevenue !== 0)] of step 8 never fails under it. *)
Lemma trial_guard_revenue :
  trial_guard s r = true ->
  (s.(trialPricePerPage) * s.(pages) !== zero) = true.
Proof.
  unfold trial_guard. intros G.
  apply andb_prop in G. destruct G as [G _].
  apply andb_prop in G. destruct G as [T P].
  destruct (mul_finite s.(trialPricePerPage) s.(pages)) as [F V];
    try apply safeNumber_finite.
  unfold neqb. rewrite eqb_val, V by trivial.
  apply gtb_zero_pos in T; try apply safeNumber_finite.
  apply gtb_zero_pos in P; try apply safeNumber_finite.
  apply negb_true_iff, Qc_eqb_false. change (val zero) with 0%Qc.
  intros E. apply Qcmult_integral in E.
  destruct E as [E | E]; rewrite E in *;
    match goal with H : (0 < 0)%Qc |- _ => now apply Qclt_not_eq in H end.
Qed.

Lemma required_fields_some :
  required_guard s r = true ->
  required_all_some r = true /\ required_all_none r = false.
Proof.
  intros G. pose proof (required_guard_pages G) as P.
  unfold required_all_some, required_all_none, is_none.
  rewrite requiredRevenue_eq, requiredPricePerPage_eq, riskAmount_eq,
    targetGPAmount_eq, profitAfterRisk_eq, G, P.
  split; reflexivity.
Qed.

Lemma required_fields_none :
  required_guard s r = false ->
  required_all_some r = false /\ required_all_none r = true
  /\ required_populated r = false.
Proof.
  intros G.
  unfold required_all_some, required_all_none, required_populated, is_none.
  rewrite requiredRevenue_eq, requiredPricePerPage_eq, riskAmount_eq,
    targetGPAmount_eq, profitAfterRisk_eq, G.
  repeat split; reflexivity.
Qed.

Lemma required_populated_guard :
  required_populated r = true -> required_guard s r = true.
Proof.
  intros H. destruct (required_guard s r) eqn:G; trivial.
  destruct (required_fields_none G) as (_ & _ & N). congruence.
Qed.

Lemma trial_fields_some :
  trial_guard s r = true ->
  trial_all_some r = true /\ trial_all_none r = false.
Proof.
  intros G. pose proof (trial_guard_revenue G) as N.
  unfold trial_all_some, trial_all_none, is_none.
  rewrite trialRevenue_eq, trialRiskAmount_eq, trialProfit_eq,
    trialGPPercent_eq, G, N.
  split; reflexivity.
Qed.

Lemma trial_fields_none :
  trial_guard s r = false ->
  trial_all_some r = false /\ trial_all_none r = true.
Proof.
  intros G. unfold trial_all_some, trial_all_none, is_none.
  rewrite trialRevenue_eq, trialRiskAmount_eq, trialProfit_eq,
    trialGPPercent_eq, G.
  split; reflexivity.
Qed.

End Gates.

(** ** The cost basis does not read [gpRate] *)

Section GpRate.

Variables (i : InputState) (g : number) (m : Mode) (l : LaborMode).

Local Abbreviation r := (calculate i m l).
Local Abbreviation r' := (calculate (with_gpRate i g) m l).

Lemma workers_gpRate : r'.(workers) = r.(workers).
Proof. rewrite (workers_eq i m l), workers_eq. reflexivity. Qed.

Lemma daysNeeded_gpRate : r'.(daysNeeded) = r.(daysNeeded).
Proof.
  rewrite (daysNeeded_eq i m l), daysNeeded_eq, workers_gpRate. reflexivity.
Qed.

Lemma monthsNeeded_gpRate : r'.(monthsNeeded) = r.(monthsNeeded).
Proof.
  rewrite (monthsNeeded_eq i m l), monthsNeeded_eq, daysNeeded_gpRate.
  reflexivity.
Qed.

Lemma baseCost_gpRate : r'.(baseCost) = r.(baseCost).
Proof.
  rewrite (baseCost_eq i m l), baseCost_eq.
  rewrite (rentalTotal_eq i m l), rentalTotal_eq.
  rewrite (laborCost_eq i m l), laborCost_eq.
  rewrite (monthlyRentalPerWorker_eq i m l), monthlyRentalPerWorker_eq.
  rewrite (officeCost_eq i m l), officeCost_eq.
  rewrite workers_gpRate, monthsNeeded_gpRate. reflexivity.
Qed.

Lemma trial_guard_gpRate :
  trial_guard (sanitize (with_gpRate i g)) r' = trial_guard (sanitize i) r.
Proof. unfold trial_guard. rewrite baseCost_gpRate. reflexivity. Qed.

Lemma trial_fields_gpRate :
  r'.(trialRevenue) = r.(trialRevenue)
  /\ r'.(trialRiskAmount) = r.(trialRiskAmount)
  /\ r'.(trialProfit) = r.(trialProfit)
  /\ r'.(trialGPPercent) = r.(trialGPPercent).
Proof.
  rewrite (trialRevenue_eq i m l), trialRevenue_eq.
  rewrite (trialRiskAmount_eq i m l), trialRiskAmount_eq.
  rewrite (trialProfit_eq i m l), trialProfit_eq.
  rewrite (trialGPPercent_eq i m l), trialGPPercent_eq.
  rewrite trial_guard_gpRate, baseCost_gpRate.
  repeat split; reflexivity.
Qed.

End GpRate.

Lemma differ_only_in_gpRate_with (a b : InputState) :
  differ_only_in_gpRate a b -> b = with_gpRate a b.(gpRate).
Proof.
  destruct a, b. unfold differ_only_in_gpRate, with_gpRate. cbn.
  intros (-> & -> & -> & -> & -> & -> & -> & -> & -> & -> & -> & ->).
  reflexivity.
Qed.

(** ** The scenarios of the specification *)

(** The end-to-end scenario with a fixed head count and a wage per page:
    one worker, 40/3 days, one month, a cost basis of 23500 and a required
    revenue of 23500 / 0.62. *)
Example scenario_fixed_per_page :
  let r := calculate initialInput noDeadline perPage in
  (fraction r.(workers), fraction r.(daysNeeded), fraction r.(monthsNeeded),
   fraction r.(rentalTotal), fraction r.(laborCost), fraction r.(baseCost),
   option_map fraction r.(requiredRevenue),
   option_map fraction r.(requiredPricePerPage), r.(errors))
  = (Some (1 # 1), Some (40 # 3), Some (1 # 1), Some (7500 # 1),
     Some (6000 # 1), Some (23500 # 1), Some (Some (1175000 # 31)),
     Some (Some (235 # 124)), [])%Q.
Proof. vm_compute. reflexivity. Qed.

(** The end-to-end scenario with a ten-day deadline and salaried staff:
    two workers, 20/3 days, one month, a cost basis of 55000. *)
Example scenario_deadline_salary :
  let r := calculate (with_scenario initialInput (dec 20000 1) (dec 10 1))
             withDeadline salary in
  (fraction r.(workers), fraction r.(daysNeeded), fraction r.(monthsNeeded),
   fraction r.(rentalTotal), fraction r.(laborCost), fraction r.(baseCost))
  = (Some (2 # 1), Some (20 # 3), Some (1 # 1), Some (15000 # 1),
     Some (30000 # 1), Some (55000 # 1))%Q.
Proof. vm_compute. reflexivity. Qed.

(** With a zero capacity and no pages the deadline formula divides zero by
    zero: the head count is [NaN], and the result carries the capacity
    message.  With pages it divides them by zero: the head count is
    [Infinity]. *)
Example zero_capacity_workers :
  let r := calculate zeroCapacityInput withDeadline perPage in
  let r' := calculate zeroCapacityPagesInput withDeadline perPage in
  r.(workers) = NaN /\ r.(errors) = [msg_pages; msg_capacity]
  /\ r'.(workers) = PosInfinity /\ r'.(errors) = [msg_capacity].
Proof. vm_compute. repeat split; reflexivity. Qed.

(** With riskRate = 0.5 and gpRate = 0.6 the only error is the message on
    the rates and the required revenue is null, while the head count, the
    duration and the cost basis are computed as usual. *)
Example rates_above_one :
  let r := calculate (with_rates initialInput (dec 1 2) (dec 6 10))
             noDeadline perPage in
  r.(errors) = [msg_rates] /\ r.(valid) = false
  /\ r.(requiredRevenue) = None /\ required_all_none r = true
  /\ (fraction r.(workers), fraction r.(daysNeeded), fraction r.(baseCost))
     = (Some (1 # 1), Some (40 # 3), Some (23500 # 1))%Q
  /\ trial_all_some r = true.
Proof. vm_compute. repeat split; reflexivity. Qed.

(** With trialPricePerPage = 0 the four trial fields are null although the
    result is valid. *)
Example no_trial_price :
  let r := calculate (with_trialPricePerPage initialInput zero)
             noDeadline perPage in
  r.(valid) = true /\ trial_all_none r = true /\ required_all_some r = true.
Proof. vm_compute. repeat split; reflexivity. Qed.

(** With no pages the page message is raised and the head count and the
    duration are still computed: one worker, zero days. *)
Example no_pages :
  let r := calculate (with_scenario initialInput zero (dec 30 1))
             withDeadline perPage in
  r.(errors) = [msg_pages]
  /\ (fraction r.(workers), fraction r.(daysNeeded), fraction r.(monthsNeeded))
     = (Some (1 # 1), Some (0 # 1), Some (0 # 1))%Q.
Proof. vm_compute. repeat split; reflexivity. Qed.

(** ** Properties of the engine *)

(** C1. Whenever the required-revenue group is populated, over the
    sanitized inputs: requiredRevenue = baseCost / (1 - riskRate - gpRate),
    riskAmount = requiredRevenue * riskRate, targetGPAmount =
    requiredRevenue * gpRate, profitAfterRisk = requiredRevenue - baseCost -
    riskAmount and requiredPricePerPage = requiredRevenue / pages. *)
Theorem required_revenue_formulas (i : InputState) (m : Mode) (l : LaborMode) :
  let r := calculate i m l in
  let s := sanitize i in
  let rr := r.(baseCost) / (one - s.(riskRate) - s.(gpRate)) in
  let ra := rr * s.(riskRate) in
  required_populated r = true ->
  r.(requiredRevenue) = Some rr
  /\ r.(riskAmount) = Some ra
  /\ r.(targetGPAmount) = Some (rr * s.(gpRate))
  /\ r.(profitAfterRisk) = Some (rr - r.(baseCost) - ra)
  /\ r.(requiredPricePerPage) = Some (rr / s.(pages)).
Proof.
  intros r s rr ra H. subst r s rr ra.
  apply required_populated_guard in H.
  pose proof (required_guard_pages _ _ _ H) as P.
  rewrite requiredRevenue_eq, requiredPricePerPage_eq, riskAmount_eq,
    targetGPAmount_eq, profitAfterRisk_eq, H, P.
  repeat split; reflexivity.
Qed.

Lemma required_revenue_formulas_witness :
  let r := calculate initialInput noDeadline perPage in
  let s := sanitize initialInput in
  let rr := r.(baseCost) / (one - s.(riskRate) - s.(gpRate)) in
  let ra := rr * s.(riskRate) in
  required_populated r = true
  /\ r.(requiredRevenue) = Some rr
  /\ r.(riskAmount) = Some ra
  /\ r.(targetGPAmount) = Some (rr * s.(gpRate))
  /\ r.(profitAfterRisk) = Some (rr - r.(baseCost) - ra)
  /\ r.(requiredPricePerPage) = Some (rr / s.(pages)).
Proof.
  assert (H : required_populated (calculate initialInput noDeadline perPage)
              = true) by (vm_compute; reflexivity).
  split; [exact H|].
  exact (required_revenue_formulas initialInput noDeadline perPage H).
Defined.


(** C3. With the deadline mode and deadlineDays > 0 the head count is
    max(1, ceil(pages / (capacity * deadlineDays))); in every other case it
    is max(1, workersManual).  The error list is the same whatever the
    mode, the deadline and the manual head count are, so the fallback
    raises no validation error. *)
Theorem workers_by_staffing_mode (i : InputState) (m : Mode) (l : LaborMode) :
  let r := calculate i m l in
  let s := sanitize i in
  r.(workers) =
    (if Mode_eqb m withDeadline && (s.(deadlineDays) > zero) then
       max one (ceil (s.(pages)
                      / (s.(capacityPerPersonPerDay) * s.(deadlineDays))))
     else max one s.(workersManual))
  /\ forall (m' : Mode) (w d : number),
       (calculate
          (mkInput i.(pages) i.(laborPerPage) i.(monthlySalaryPerWorker)
             i.(scannerMonthly) i.(pcMonthly) i.(workingDaysPerMonth)
             i.(officePerJob) i.(riskRate) i.(gpRate)
             i.(capacityPerPersonPerDay) w d i.(trialPricePerPage))
          m' l).(errors) = r.(errors).
Proof.
  split; [reflexivity|]. intros m' w d.
  rewrite (errors_eq i m l), errors_eq. reflexivity.
Qed.

(** C4. baseCost = rentalTotal + laborCost + officeCost in every result,
    with or without validation errors. *)
Theorem baseCost_is_sum (i : InputState) (m : Mode) (l : LaborMode) :
  let r := calculate i m l in
  r.(baseCost) = r.(rentalTotal) + r.(laborCost) + r.(officeCost).
Proof. reflexivity. Qed.


(** C6. daysNeeded = pages / (capacity * workers) when capacity > 0 and
    workers > 0, else 0; monthsNeeded = ceil(daysNeeded /
    workingDaysPerMonth) when workingDaysPerMonth > 0 and daysNeeded > 0,
    else 0. *)
Theorem duration_formulas (i : InputState) (m : Mode) (l : LaborMode) :
  let r := calculate i m l in
  let s := sanitize i in
  r.(daysNeeded) =
    (if (s.(capacityPerPersonPerDay) > zero) && (r.(workers) > zero) then
       s.(pages) / (s.(capacityPerPersonPerDay) * r.(workers))
     else zero)
  /\ r.(monthsNeeded) =
    (if (s.(workingDaysPerMonth) > zero) && (r.(daysNeeded) > zero) then
       ceil (r.(daysNeeded) / s.(workingDaysPerMonth))
     else zero).
Proof. split; reflexivity. Qed.






(** C9. Two inputs that differ only in gpRate give the same four trial
    fields, under the same staffing and labour modes. *)
Theorem trial_ignores_gpRate (a b : InputState) (m : Mode) (l : LaborMode) :
  differ_only_in_gpRate a b ->
  (calculate b m l).(trialRevenue) = (calculate a m l).(trialRevenue)
  /\ (calculate b m l).(trialRiskAmount) = (calculate a m l).(trialRiskAmount)
  /\ (calculate b m l).(trialProfit) = (calculate a m l).(trialProfit)
  /\ (calculate b m l).(trialGPPercent) = (calculate a m l).(trialGPPercent).
Proof.
  intros H. rewrite (@differ_only_in_gpRate_with a b H).
  apply trial_fields_gpRate.
Qed.

Lemma trial_ignores_gpRate_witness :
  let a := initialInput in
  let b := with_gpRate initialInput (dec 1 2) in
  differ_only_in_gpRate a b
  /\ (calculate b withDeadline salary).(trialRevenue)
     = (calculate a withDeadline salary).(trialRevenue)
  /\ (calculate b withDeadline salary).(trialRiskAmount)
     = (calculate a withDeadline salary).(trialRiskAmount)
  /\ (calculate b withDeadline salary).(trialProfit)
     = (calculate a withDeadline salary).(trialProfit)
  /\ (calculate b withDeadline salary).(trialGPPercent)
     = (calculate a withDeadline salary).(trialGPPercent).
Proof.
  assert (H : differ_only_in_gpRate initialInput
                (with_gpRate initialInput (dec 1 2)))
    by (repeat split; reflexivity).
  split; [exact H|].
  exact (@trial_ignores_gpRate initialInput
           (with_gpRate initialInput (dec 1 2)) withDeadline salary H).
Defined.

(** C10. [safeNumber] turns [NaN] and the infinities into 0 and returns
    every other number unchanged, negative ones included; the error list
    does not read the monetary fields; and a negative wage per page, with
    positive pages, capacity and working days and riskRate + gpRate < 1,
    gives a valid result with no error and a negative labour cost. *)
Theorem negative_wage_accepted :
  (forall x : number,
     safeNumber x =
     match x with NaN | PosInfinity | NegInfinity => zero | _ => x end)
  /\ (forall (i : InputState) (m : Mode) (l : LaborMode)
        (lpp sal sc pc off tp : number),
        (calculate
           (mkInput i.(pages) lpp sal sc pc i.(workingDaysPerMonth) off
              i.(riskRate) i.(gpRate) i.(capacityPerPersonPerDay)
              i.(workersManual) i.(deadlineDays) tp)
           m l).(errors) = (calculate i m l).(errors))
  /\ exists i : InputState,
       (i.(laborPerPage) < zero) = true
       /\ (i.(pages) > zero) = true
       /\ (i.(capacityPerPersonPerDay) > zero) = true
       /\ (i.(workingDaysPerMonth) > zero) = true
       /\ (i.(riskRate) + i.(gpRate) < one) = true
       /\ let r := calculate i noDeadline perPage in
          r.(valid) = true /\ r.(errors) = []
          /\ (r.(laborCost) < zero) = true.
Proof.
  split; [now intros []|]. split.
  - intros i m l lpp sal sc pc off tp.
    rewrite (errors_eq i m l), errors_eq. reflexivity.
  - exists negativeWageInput. vm_compute. repeat split; reflexivity.
Qed.

(** The labour cost of the negative wage: 20000 pages at -0.3. *)
Example negative_wage_laborCost :
  fraction (calculate negativeWageInput noDeadline perPage).(laborCost)
  = Some (-6000 # 1)%Q.
Proof. vm_compute. reflexivity. Qed.

(** * Further facts

    Order facts on the rationals and on [number], then properties of the
    engine beyond the specification's list and of the page around it. *)

Unset Implicit Arguments.

(** ** Order on the rationals *)

Section QcOrder.
Local Open Scope Qc_scope.

Lemma Qc_mul_pos (a b : Qc) : 0 < a -> 0 < b -> 0 < a * b.
Proof.
  intros A B. rewrite <- (Qcmult_0_l b). now apply Qcmult_lt_compat_r.
Qed.

Lemma Qc_inv_pos (a : Qc) : 0 < a -> 0 < / a.
Proof.
  intros A. unfold Qclt in *. unfold Qcinv. cbn [this Q2Qc].
  rewrite (Qred_correct (/ a)). now apply Qinv_lt_0_compat.
Qed.

Lemma Qc_div_pos (a b : Qc) : 0 < a -> 0 < b -> 0 < a / b.
Proof. intros A B. apply Qc_mul_pos; trivial. now apply Qc_inv_pos. Qed.

Lemma Qc_pos_neq (a : Qc) : 0 < a -> a <> 0.
Proof. intros A E. rewrite E in A. now apply Qclt_not_eq in A. Qed.

Lemma Qc_div_le_iff (x y z : Qc) : 0 < y -> (x / y <= z <-> x <= z * y).
Proof.
  intros Y. pose proof (Qc_pos_neq y Y) as N. split; intros H.
  - apply Qcmult_le_compat_r with (z := y) in H; [|now apply Qclt_le_weak].
    replace (x / y * y) with x in H by (field; exact N). exact H.
  - apply Qcmult_lt_0_le_reg_r with (z := y); trivial.
    replace (x / y * y) with x by (field; exact N). exact H.
Qed.

Lemma Qc_div_lt_iff (x y z : Qc) : 0 < y -> (z < x / y <-> z * y < x).
Proof.
  intros Y. split; intros H.
  - apply Qcnot_le_lt. intros L. apply (Qc_div_le_iff x y z Y) in L.
    now apply Qcle_not_lt in L.
  - apply Qcnot_le_lt. intros L. apply (Qc_div_le_iff x y z Y) in L.
    now apply Qcle_not_lt in L.
Qed.

Lemma Qc_le_ceiling (q : Qc) : q <= Q2Qc (inject_Z (Qceiling q)).
Proof.
  unfold Qcle. cbn [this Q2Qc]. rewrite Qred_correct. apply Qle_ceiling.
Qed.

Lemma Qc_ceiling_lt (q : Qc) : Q2Qc (inject_Z (Qceiling q)) - 1 < q.
Proof.
  unfold Qclt, Qcminus, Qcplus, Qcopp. cbn [this Q2Qc].
  rewrite !Qred_correct.
  pose proof (Qceiling_lt q) as H.
  unfold Z.sub in H. rewrite inject_Z_plus in H. exact H.
Qed.

Lemma Qc_ceiling_pos (q : Qc) : 0 < q -> (1 <= Qceiling q)%Z.
Proof.
  intros H.
  assert (L : (inject_Z 0 < inject_Z (Qceiling q))%Q).
  { apply Qlt_le_trans with (this q); [exact H | apply Qle_ceiling]. }
  rewrite <- Zlt_Qlt in L. apply Z.le_succ_l in L. exact L.
Qed.

Lemma Qc_one_le_inject_Z (c : Z) : (1 <= c)%Z -> 1 <= Q2Qc (inject_Z c).
Proof.
  intros H. unfold Qcle. cbn [this Q2Qc].
  rewrite (Qred_correct (inject_Z c)).
  change (inject_Z 1 <= inject_Z c)%Q. now rewrite <- Zle_Qle.
Qed.

End QcOrder.

(** ** Order on [number] *)

Section NumOrder.
Local Open Scope Qc_scope.

Lemma ltb_true_val (x y : number) :
  is_finite x = true -> is_finite y = true ->
  (ltb x y = true <-> val x < val y).
Proof. intros X Y. rewrite ltb_val by trivial. apply Qc_ltb_true. Qed.

Lemma leb_true_val (x y : number) :
  is_finite x = true -> is_finite y = true ->
  (leb x y = true <-> val x <= val y).
Proof.
  intros X Y. unfold leb. rewrite ltb_val, eqb_val by trivial.
  rewrite orb_true_iff, Qc_ltb_true, Qc_eqb_true. split.
  - intros [L | E]; [now apply Qclt_le_weak | rewrite E; apply Qcle_refl].
  - apply Qcle_lt_or_eq.
Qed.

Lemma gtb_true_finite (x : number) :
  is_finite x = true -> (gtb x zero = true <-> 0 < val x).
Proof. intros X. rewrite gtb_zero_val by trivial. apply Qc_ltb_true. Qed.

(** The value of [Math.ceil] is the ceiling of the value. *)
Lemma ceil_val (x : number) :
  is_finite x = true -> val (ceil x) = Q2Qc (inject_Z (Qceiling (val x))).
Proof.
  destruct x; simpl; try congruence; intros _.
  - reflexivity.
  - destruct (Z.eqb (Qceiling q) 0) eqn:E; simpl; trivial.
    destruct (Qc_ltb q 0); simpl; trivial.
    apply Z.eqb_eq in E. rewrite E. reflexivity.
Qed.

(** [Math.max(1, y)] is at least 1 and at least [y]. *)
Lemma max_one_bounds (y : number) :
  is_finite y = true ->
  1 <= val (max one y) /\ val y <= val (max one y).
Proof.
  intros Y. unfold max. rewrite (finite_not_nan y Y).
  change (is_nan one || false) with false. cbv iota.
  destruct (ltb one y) eqn:L.
  - split; [|apply Qcle_refl].
    apply Qclt_le_weak. now apply (ltb_true_val one y eq_refl Y).
  - assert (B : val y <= 1).
    { rewrite (ltb_val one y eq_refl Y) in L. now apply Qc_ltb_false in L. }
    destruct (ltb y one); split; trivial; apply Qcle_refl.
Qed.

(** When [Math.max(1, y)] exceeds 1 it is [y]. *)
Lemma max_one_above (y : number) :
  is_finite y = true -> ltb one (max one y) = true -> max one y = y.
Proof.
  intros Y H. destruct (max_one_cases y Y) as [E | [E _]]; trivial.
  rewrite E in H. discriminate H.
Qed.

End NumOrder.

(** ** Duration *)

Section Duration.
Local Open Scope Qc_scope.

Variables (i : InputState) (m : Mode) (l : LaborMode).

Local Abbreviation r := (calculate i m l).
Local Abbreviation s := (sanitize i).

Lemma capacity_workers_finite :
  gtb s.(capacityPerPersonPerDay) zero = true -> is_finite r.(workers) = true.
Proof.
  intros C. apply workers_finite.
  pose proof (pos_not_zero s.(capacityPerPersonPerDay)
                (safeNumber_finite _) C) as Z.
  rewrite Z. apply andb_false_r.
Qed.

Lemma daysNeeded_always_finite : is_finite r.(daysNeeded) = true.
Proof.
  destruct (gtb s.(capacityPerPersonPerDay) zero) eqn:C.
  - now apply daysNeeded_finite, capacity_workers_finite.
  - rewrite daysNeeded_eq, C. reflexivity.
Qed.

Lemma monthsNeeded_always_finite : is_finite r.(monthsNeeded) = true.
Proof.
  rewrite monthsNeeded_eq.
  destruct (gtb s.(workingDaysPerMonth) zero && gtb r.(daysNeeded) zero)
    eqn:G; trivial.
  apply andb_prop in G. destruct G as [W _].
  apply ceil_finite, div_finite;
    [apply daysNeeded_always_finite | apply safeNumber_finite|].
  apply pos_not_zero; trivial. apply safeNumber_finite.
Qed.

(** Under the guard of step 3 the quotient is positive and the month
    count is its ceiling, at least 1. *)
Lemma monthsNeeded_guarded :
  gtb s.(workingDaysPerMonth) zero && gtb r.(daysNeeded) zero = true ->
  exists c : Z,
    (1 <= c)%Z
    /\ c = Qceiling (val r.(daysNeeded) / val s.(workingDaysPerMonth))%Qc
    /\ r.(monthsNeeded) = Fin (Q2Qc (inject_Z c)).
Proof.
  intros G. rewrite monthsNeeded_eq, G.
  apply andb_prop in G. destruct G as [W D].
  pose proof daysNeeded_always_finite as FD.
  pose proof (safeNumber_finite i.(workingDaysPerMonth)) as FW.
  pose proof (pos_not_zero _ FW W) as ZW.
  destruct (div_finite r.(daysNeeded) s.(workingDaysPerMonth) FD FW ZW)
    as [FQ VQ].
  apply (gtb_true_finite _ FW) in W. apply (gtb_true_finite _ FD) in D.
  assert (P : 0 < val (div r.(daysNeeded) s.(workingDaysPerMonth)))
    by (rewrite VQ; now apply Qc_div_pos).
  pose proof (Qc_ceiling_pos _ P) as C1.
  exists (Qceiling (val (div r.(daysNeeded) s.(workingDaysPerMonth)))).
  split; [exact C1|].
  split; [exact (f_equal (fun q : Qc => Qceiling q) VQ)|].
  destruct (div r.(daysNeeded) s.(workingDaysPerMonth)) as [| | | |q];
    try discriminate FQ.
  - exfalso. now apply Qclt_not_eq in P.
  - cbn [val] in *. cbn [ceil].
    destruct (Z.eqb (Qceiling q) 0) eqn:E; trivial.
    apply Z.eqb_eq in E. rewrite E in C1. now exfalso.
Qed.

End Duration.

Section Headcount.
Local Open Scope Qc_scope.

(** The head count of the deadline formula, over numbers: it is finite and
    at least 1, it meets the deadline, and no smaller head count does. *)
Lemma headcount_meets_deadline (P C D : number) :
  is_finite P = true -> is_finite C = true -> is_finite D = true ->
  gtb C zero = true -> gtb D zero = true ->
  let W := max one (ceil (div P (mul C D))) in
  is_finite W = true
  /\ gtb W zero = true
  /\ leb (div P (mul C W)) D = true
  /\ (gtb W one = true -> ltb D (div P (mul C (sub W one))) = true).
Proof.
  intros FP FC FD C0 D0 W.
  pose proof (proj1 (gtb_true_finite C FC) C0) as Cp.
  pose proof (proj1 (gtb_true_finite D FD) D0) as Dp.
  destruct (mul_finite C D FC FD) as [FCD VCD].
  assert (ZCD : is_zero (mul C D) = false).
  { rewrite is_zero_val, VCD by trivial. apply Qc_eqb_false, Qc_pos_neq.
    now apply Qc_mul_pos. }
  destruct (div_finite P (mul C D) FP FCD ZCD) as [FR VR].
  pose proof (ceil_finite _ FR) as FK.
  pose proof (max_one_finite _ FK) as FW. fold W in FW.
  destruct (max_one_bounds _ FK) as [B1 B2]. fold W in B1, B2.
  rewrite (ceil_val _ FR), VR, VCD in B2.
  assert (Wp : 0 < val W).
  { eapply Qclt_le_trans; [|exact B1]. now apply Qc_ltb_true. }
  assert (R : val P / (val C * val D) <= val W).
  { eapply Qcle_trans; [apply Qc_le_ceiling | exact B2]. }
  apply Qc_div_le_iff in R; [|now apply Qc_mul_pos].
  split; [exact FW|]. split; [now apply (gtb_true_finite W FW)|]. split.
  - destruct (mul_finite C W FC FW) as [FCW VCW].
    assert (ZCW : is_zero (mul C W) = false).
    { rewrite is_zero_val, VCW by trivial. apply Qc_eqb_false, Qc_pos_neq.
      now apply Qc_mul_pos. }
    destruct (div_finite P (mul C W) FP FCW ZCW) as [FQ VQ].
    apply (leb_true_val _ _ FQ FD). rewrite VQ, VCW.
    apply Qc_div_le_iff; [now apply Qc_mul_pos|].
    replace (val D * (val C * val W)) with (val W * (val C * val D)) by ring.
    exact R.
  - intros G. unfold gtb in G.
    pose proof (max_one_above _ FK G) as E. fold W in E.
    apply (ltb_true_val one W eq_refl FW) in G. change (val one) with 1 in G.
    destruct (sub_finite W one FW eq_refl) as [FS VS].
    change (val one) with 1 in VS.
    assert (Sp : 0 < val W - 1).
    { apply Qclt_minus_iff in G. exact G. }
    destruct (mul_finite C (sub W one) FC FS) as [FCS VCS].
    assert (ZCS : is_zero (mul C (sub W one)) = false).
    { rewrite is_zero_val, VCS, VS by trivial.
      apply Qc_eqb_false, Qc_pos_neq. now apply Qc_mul_pos. }
    destruct (div_finite P _ FP FCS ZCS) as [FQ VQ].
    apply (ltb_true_val _ _ FD FQ). rewrite VQ, VCS, VS.
    apply Qc_div_lt_iff; [now apply Qc_mul_pos|].
    assert (L : val W - 1 < val P / (val C * val D)).
    { rewrite E at 1. rewrite (ceil_val _ FR), VR, VCD.
      apply Qc_ceiling_lt. }
    apply Qc_div_lt_iff in L; [|now apply Qc_mul_pos].
    replace (val D * (val C * (val W - 1)))
      with ((val W - 1) * (val C * val D)) by ring.
    exact L.
Qed.

End Headcount.


(** ** Revenue and trial figures *)

Section CostPlus.
Local Open Scope Qc_scope.

Lemma Qc_le_div_iff (x y z : Qc) : 0 < y -> (z <= x / y <-> z * y <= x).
Proof.
  intros Y. pose proof (Qc_pos_neq y Y) as N. split; intros H.
  - apply Qcmult_le_compat_r with (z := y) in H; [|now apply Qclt_le_weak].
    replace (x / y * y) with x in H by (field; exact N). exact H.
  - apply Qcmult_lt_0_le_reg_r with (z := y); trivial.
    replace (x / y * y) with x by (field; exact N). exact H.
Qed.

(** The required revenue and price per page, over numbers. *)
Lemma required_values (b rk gp P : number) :
  is_finite b = true -> is_finite rk = true -> is_finite gp = true ->
  is_finite P = true ->
  gtb b zero = true -> gtb (sub (sub one rk) gp) zero = true ->
  gtb P zero = true ->
  let rr := div b (sub (sub one rk) gp) in
  is_finite rr = true /\ val rr = val b / (1 - val rk - val gp)
  /\ 0 < 1 - val rk - val gp /\ 0 < val rr
  /\ is_finite (div rr P) = true /\ val (div rr P) = val rr / val P.
Proof.
  intros Fb Fr Fg FP B D P0 rr. subst rr.
  destruct (sub_finite one rk eq_refl Fr) as [F1 V1].
  destruct (sub_finite _ gp F1 Fg) as [Fd Vd].
  rewrite V1 in Vd. change (val one) with 1 in Vd.
  pose proof (pos_not_zero _ Fd D) as Z.
  destruct (div_finite b _ Fb Fd Z) as [FR VR]. rewrite Vd in VR.
  pose proof (proj1 (gtb_true_finite _ Fb) B) as Bp.
  pose proof (proj1 (gtb_true_finite _ Fd) D) as Dp. rewrite Vd in Dp.
  pose proof (proj1 (gtb_true_finite _ FP) P0) as Pp.
  pose proof (pos_not_zero _ FP P0) as ZP.
  destruct (div_finite _ P FR FP ZP) as [FQ VQ].
  repeat split; trivial.
  rewrite VR. now apply Qc_div_pos.
Qed.

End CostPlus.


(** Unfolds the engine and the record updates, leaving the arithmetic of
    [number] folded, so that two calls can be compared term by term. *)
Ltac calc_norm :=
  cbv beta iota zeta delta
    [calculate V1.calculate without_salary
     with_laborPerPage with_monthlySalaryPerWorker with_deadlineDays
     with_scenario with_trialPricePerPage with_workersManual set_field
     pages laborPerPage monthlySalaryPerWorker scannerMonthly pcMonthly
     workingDaysPerMonth officePerJob riskRate gpRate
     capacityPerPersonPerDay workersManual deadlineDays trialPricePerPage
     V1.pages V1.laborPerPage V1.scannerMonthly V1.pcMonthly
     V1.workingDaysPerMonth V1.officePerJob V1.riskRate V1.gpRate
     V1.capacityPerPersonPerDay V1.workersManual V1.deadlineDays
     V1.trialPricePerPage
     Mode_eqb LaborMode_eqb andb].


Lemma safeNumber_id (x : number) : is_finite x = true -> safeNumber x = x.
Proof. now destruct x. Qed.

Section Trial.
Local Open Scope Qc_scope.

(** The trial figures, over numbers. *)
Lemma trial_values (tp P b rk : number) :
  is_finite tp = true -> is_finite P = true -> is_finite b = true ->
  is_finite rk = true -> gtb tp zero = true -> gtb P zero = true ->
  let t := mul tp P in
  let profit := sub (sub t b) (mul t rk) in
  is_finite t = true /\ val t = val tp * val P /\ 0 < val t
  /\ is_finite profit = true
  /\ val profit = val t - val b - val t * val rk
  /\ is_finite (div profit t) = true
  /\ val (div profit t) = val profit / val t.
Proof.
  intros Ft FP Fb Fr T0 P0 t profit. subst t profit.
  destruct (mul_finite tp P Ft FP) as [FT VT].
  pose proof (proj1 (gtb_true_finite tp Ft) T0) as Tp.
  pose proof (proj1 (gtb_true_finite P FP) P0) as Pp.
  assert (TP : 0 < val (mul tp P)) by (rewrite VT; now apply Qc_mul_pos).
  destruct (sub_finite _ b FT Fb) as [F1 V1].
  destruct (mul_finite _ rk FT Fr) as [F2 V2].
  destruct (sub_finite _ _ F1 F2) as [F3 V3]. rewrite V1, V2 in V3.
  assert (Z : is_zero (mul tp P) = false).
  { rewrite is_zero_val by trivial. now apply Qc_eqb_false, Qc_pos_neq. }
  destruct (div_finite _ _ F3 FT Z) as [F4 V4].
  repeat split; trivial.
Qed.

End Trial.

Lemma trial_price_not_read (i : InputState) (v : number) (m : Mode)
  (l : LaborMode) :
  without_trial (calculate (with_trialPricePerPage i v) m l)
  = without_trial (calculate i m l).
Proof. destruct i. unfold without_trial. calc_norm. reflexivity. Qed.

(** ** Validity *)

Section Validity.
Local Open Scope Qc_scope.

Variables (i : InputState) (m : Mode) (l : LaborMode).

Local Abbreviation r := (calculate i m l).
Local Abbreviation s := (sanitize i).

Lemma costs_finite :
  is_finite r.(workers) = true ->
  is_finite r.(monthlyRentalPerWorker) = true
  /\ is_finite r.(rentalTotal) = true
  /\ is_finite r.(laborCost) = true
  /\ is_finite r.(officeCost) = true.
Proof.
  intros W. pose proof (monthsNeeded_always_finite i m l) as M.
  assert (R : is_finite r.(monthlyRentalPerWorker) = true).
  { rewrite monthlyRentalPerWorker_eq.
    apply add_finite; apply safeNumber_finite. }
  split; [exact R|]. split; [|split].
  - rewrite rentalTotal_eq. apply mul_finite; trivial.
    now apply mul_finite.
  - rewrite laborCost_eq. destruct (LaborMode_eqb l perPage).
    + apply mul_finite; apply safeNumber_finite.
    + apply mul_finite; trivial. apply mul_finite; trivial.
      apply safeNumber_finite.
  - rewrite officeCost_eq. apply safeNumber_finite.
Qed.

Lemma max_one_finite_geb (y : number) :
  is_finite (max one y) = true -> geb (max one y) one = true.
Proof.
  destruct y; intros W; try (now apply max_one_geb);
    try (vm_compute in W; discriminate W).
  vm_compute. reflexivity.
Qed.

Lemma workers_geb_one :
  is_finite r.(workers) = true -> geb r.(workers) one = true.
Proof.
  rewrite workers_eq. destruct (deadline_driven s m);
    apply max_one_finite_geb.
Qed.

End Validity.

(** ** Record updates and handlers *)

Lemma with_scenario_twice (i : InputState) (p d p' d' : number) :
  with_scenario (with_scenario i p d) p' d' = with_scenario i p' d'.
Proof. reflexivity. Qed.

Lemma with_scenario_same (i : InputState) :
  with_scenario i i.(pages) i.(deadlineDays) = i.
Proof. now destruct i. Qed.


Lemma hd_error_push_if (c : bool) (msg x : string) (errs : list string) :
  hd_error errs = Some x -> hd_error (push_if c msg errs) = Some x.
Proof. destruct c, errs; simpl; congruence. Qed.


(** ** Further properties of the engine *)















(** X8. The result is valid exactly when the sanitized pages, capacity and
    working days per month are positive and riskRate + gpRate leaves a
    positive share; and valid means an empty error list. *)
Theorem valid_iff_inputs_positive (i : InputState) (m : Mode) (l : LaborMode) :
  let r := calculate i m l in
  let s := sanitize i in
  r.(valid) =
    (s.(pages) > zero) && (s.(capacityPerPersonPerDay) > zero)
    && (s.(workingDaysPerMonth) > zero)
    && (one - s.(riskRate) - s.(gpRate) > zero)
  /\ (r.(valid) = true <-> r.(errors) = []).
Proof.
  intros r s. subst r s. split.
  - rewrite valid_eq. apply no_errors_eq.
  - rewrite valid_eq. unfold no_errors.
    destruct (errors (calculate i m l)); simpl; split;
      congruence || reflexivity.
Qed.



Lemma msgs_distinct :
  msg_pages <> msg_capacity /\ msg_pages <> msg_workingDays
  /\ msg_pages <> msg_rates /\ msg_capacity <> msg_workingDays
  /\ msg_capacity <> msg_rates /\ msg_workingDays <> msg_rates.
Proof. repeat split; apply String.eqb_neq; vm_compute; reflexivity. Qed.

(** X10. Every violated rule is reported and nothing else is: each of the
    four messages is in the error list exactly when its rule fails, no
    message is repeated, and the page message comes first whenever it is
    present. *)
Theorem errors_report_each_violation (i : InputState) (m : Mode)
  (l : LaborMode) :
  let r := calculate i m l in
  let s := sanitize i in
  (In msg_pages r.(errors) <-> (s.(pages) <= zero) = true)
  /\ (In msg_capacity r.(errors)
      <-> (s.(capacityPerPersonPerDay) <= zero) = true)
  /\ (In msg_workingDays r.(errors)
      <-> (s.(workingDaysPerMonth) <= zero) = true)
  /\ (In msg_rates r.(errors)
      <-> (one - s.(riskRate) - s.(gpRate) <= zero) = true)
  /\ NoDup r.(errors)
  /\ (In msg_pages r.(errors) -> hd_error r.(errors) = Some msg_pages).
Proof.
  intros r s. subst r s. rewrite errors_eq.
  destruct msgs_distinct as (N1 & N2 & N3 & N4 & N5 & N6).
  destruct (leb (sanitize i).(pages) zero),
    (leb (sanitize i).(capacityPerPersonPerDay) zero),
    (leb (sanitize i).(workingDaysPerMonth) zero),
    (leb (sub (sub one (sanitize i).(riskRate)) (sanitize i).(gpRate)) zero);
    cbn [push_if app In hd_error];
    (repeat split; try reflexivity; try (intros; discriminate);
     try (intros; exfalso; intuition congruence);
     try (intros; tauto);
     try (repeat constructor; cbn [In]; intuition congruence)).
Qed.

Lemma errors_report_each_violation_witness :
  let r := calculate zeroCapacityInput withDeadline perPage in
  In msg_pages r.(errors) /\ hd_error r.(errors) = Some msg_pages.
Proof.
  assert (H : In msg_pages
                (calculate zeroCapacityInput withDeadline perPage).(errors))
    by (vm_compute; left; reflexivity).
  split; [exact H|].
  apply (errors_report_each_violation zeroCapacityInput withDeadline
           perPage).
  exact H.
Defined.

(** X11. The trial price reaches the four trial fields only: every other
    field of the result is the same whatever trialPricePerPage is. *)
Theorem trial_price_only_in_trial_fields (i : InputState) (v : number)
  (m : Mode) (l : LaborMode) :
  without_trial (calculate (with_trialPricePerPage i v) m l)
  = without_trial (calculate i m l).
Proof. apply trial_price_not_read. Qed.

(** X12. Each labour mode reads its own rate only: with salaried staff the
    whole result is the same whatever the wage per page is, and with a wage
    per page it is the same whatever the monthly salary is. *)
Theorem labor_mode_reads_own_rate (i : InputState) (v : number) (m : Mode) :
  calculate (with_laborPerPage i v) m salary = calculate i m salary
  /\ calculate (with_monthlySalaryPerWorker i v) m perPage
     = calculate i m perPage.
Proof. destruct i. split; calc_norm; reflexivity. Qed.

(** X13. Each staffing mode reads its own head-count input only: with a
    fixed head count the whole result is the same whatever deadlineDays is,
    and under the deadline formula (deadlineDays > 0) it is the same
    whatever workersManual is. *)
Theorem staffing_mode_reads_own_input (i : InputState) (v : number)
  (l : LaborMode) :
  calculate (with_deadlineDays i v) noDeadline l = calculate i noDeadline l
  /\ (((sanitize i).(deadlineDays) > zero) = true ->
      calculate (with_workersManual i v) withDeadline l
      = calculate i withDeadline l).
Proof.
  destruct i as [p lp ms sc pc wd off rk gp cap wm dd tp]. split.
  - calc_norm. reflexivity.
  - cbn [sanitize deadlineDays]. intros D. calc_norm. rewrite D.
    reflexivity.
Qed.

Lemma staffing_mode_reads_own_input_witness :
  ((sanitize initialInput).(deadlineDays) > zero) = true
  /\ calculate (with_workersManual initialInput (dec 7 1)) withDeadline
       salary
     = calculate initialInput withDeadline salary.
Proof.
  assert (D : ((sanitize initialInput).(deadlineDays) > zero) = true)
    by (vm_compute; reflexivity).
  split; [exact D|].
  exact (proj2 (staffing_mode_reads_own_input initialInput (dec 7 1) salary)
           D).
Defined.

(** X14. In deadline mode with deadlineDays <= 0 (or cleared, or not a
    finite number) the result is the one of the fixed head count, apart
    from the echoed mode. *)
Theorem deadline_fallback_is_fixed_headcount (i : InputState)
  (l : LaborMode) :
  ((sanitize i).(deadlineDays) > zero) = false ->
  calculate i withDeadline l
  = with_modeUsed (calculate i noDeadline l) withDeadline.
Proof.
  destruct i as [p lp ms sc pc wd off rk gp cap wm dd tp].
  cbn [sanitize deadlineDays]. intros D.
  unfold with_modeUsed. calc_norm. rewrite D. reflexivity.
Qed.

Lemma deadline_fallback_is_fixed_headcount_witness :
  let i := with_deadlineDays initialInput zero in
  ((sanitize i).(deadlineDays) > zero) = false
  /\ calculate i withDeadline salary
     = with_modeUsed (calculate i noDeadline salary) withDeadline.
Proof.
  assert (D : ((sanitize (with_deadlineDays initialInput zero)).(deadlineDays)
               > zero) = false) by (vm_compute; reflexivity).
  split; [exact D|].
  exact (deadline_fallback_is_fixed_headcount
           (with_deadlineDays initialInput zero) salary D).
Defined.

(** X15. The first version of the engine is the current one in per-page
    labour mode: on the same input, less the monthly salary, both return
    the same result. *)
Theorem first_version_is_per_page (i : InputState) (m : Mode) :
  V1.calculate (without_salary i) m = calculate i m perPage.
Proof. destruct i. calc_norm. reflexivity. Qed.

(** ** Properties of the page *)

(** X16. The scenario dashboard keeps the rows in order, one result per
    row; a row's result does not depend on the pages and deadline of the
    main form; and a row with the form's own pages and deadline shows the
    single-job result. *)
Theorem scenario_rows_are_independent (ss : list Sc.Scenario)
  (input : InputState) (mode : Mode) (laborMode : LaborMode) :
  map scenario (scenarioResults ss input mode laborMode) = ss
  /\ (forall p d : number,
        scenarioResults ss (with_scenario input p d) mode laborMode
        = scenarioResults ss input mode laborMode)
  /\ (forall row : ScenarioResult,
        In row (scenarioResults ss input mode laborMode) ->
        row.(scenario).(Sc.pages) = input.(pages) ->
        row.(scenario).(Sc.deadlineDays) = input.(deadlineDays) ->
        row.(result) = calculate input mode laborMode).
Proof.
  unfold scenarioResults. split; [|split].
  - rewrite map_map. cbn [scenario]. apply map_id.
  - intros p d. apply map_ext. intros s.
    now rewrite with_scenario_twice.
  - intros row H P D. apply in_map_iff in H. destruct H as (s & <- & _).
    cbn [scenario result] in *. now rewrite P, D, with_scenario_same.
Qed.

Lemma scenario_rows_are_independent_witness :
  let rows := scenarioResults initialScenarios initialInput withDeadline
                salary in
  exists row : ScenarioResult,
    In row rows
    /\ row.(scenario).(Sc.pages) = initialInput.(pages)
    /\ row.(scenario).(Sc.deadlineDays) = initialInput.(deadlineDays)
    /\ row.(result) = calculate initialInput withDeadline salary.
Proof.
  eexists. split; [left; reflexivity|].
  split; [reflexivity|]. split; [reflexivity|].
  apply (scenario_rows_are_independent initialScenarios initialInput
           withDeadline salary); [left|..]; reflexivity.
Defined.

(** X17. Typing in a box of the form writes that field and no other: the
    field becomes 0 when the box is empty and [Number] of the text
    otherwise, and every other field keeps its value. *)
Theorem handleChangeNumber_writes_one_field (Number : string -> number)
  (field other : InputField) (value : string) (prev : InputState) :
  get_field other (handleChangeNumber Number field value prev)
  = if InputField_eq_dec field other then
      (if String.eqb value "" then zero else Number value)
    else get_field other prev.
Proof.
  unfold handleChangeNumber, box_value.
  destruct (InputField_eq_dec field other) as [<- | N].
  - destruct field; reflexivity.
  - destruct field, other; try reflexivity; now contradiction N.
Qed.

Lemma set_scenario_field_id (f : ScenarioField) (v : number)
  (s : Sc.Scenario) :
  (set_scenario_field f v s).(Sc.id) = s.(Sc.id)
  /\ (set_scenario_field f v s).(Sc.name) = s.(Sc.name).
Proof. now destruct f. Qed.

(** X18. Editing a scenario box keeps the rows, their ids and their names;
    it writes the edited column only; and repeating the same edit changes
    nothing more. *)
Theorem handleScenarioChange_keeps_rows (Number : string -> number)
  (id : number) (field : ScenarioField) (value : string)
  (prev : list Sc.Scenario) :
  let next := handleScenarioChange Number id field value prev in
  map Sc.id next = map Sc.id prev
  /\ map Sc.name next = map Sc.name prev
  /\ map Sc.deadlineDays (handleScenarioChange Number id S_pages value prev)
     = map Sc.deadlineDays prev
  /\ map Sc.pages
       (handleScenarioChange Number id S_deadlineDays value prev)
     = map Sc.pages prev
  /\ handleScenarioChange Number id field value next = next.
Proof.
  intros next. subst next. unfold handleScenarioChange.
  rewrite !map_map. repeat split.
  - apply map_ext. intros s. destruct (eqb s.(Sc.id) id); trivial.
    apply set_scenario_field_id.
  - apply map_ext. intros s. destruct (eqb s.(Sc.id) id); trivial.
    apply set_scenario_field_id.
  - apply map_ext. intros s. now destruct (eqb s.(Sc.id) id).
  - apply map_ext. intros s. now destruct (eqb s.(Sc.id) id).
  - apply map_ext. intros s. destruct (eqb s.(Sc.id) id) eqn:E.
    + rewrite (proj1 (set_scenario_field_id _ _ _)), E.
      now destruct field.
    + now rewrite E.
Qed.

(** X19. An edit of one scenario row leaves the result of every row with
    another id as it was. *)
Theorem handleScenarioChange_other_rows (Number : string -> number)
  (id : number) (field : ScenarioField) (value : string)
  (prev : list Sc.Scenario) (input : InputState) (mode : Mode)
  (laborMode : LaborMode) (n : nat) (s : Sc.Scenario) :
  nth_error prev n = Some s ->
  (s.(Sc.id) === id) = false ->
  nth_error
    (scenarioResults (handleScenarioChange Number id field value prev)
       input mode laborMode) n
  = nth_error (scenarioResults prev input mode laborMode) n.
Proof.
  intros H E. unfold scenarioResults, handleScenarioChange.
  rewrite !nth_error_map, H. cbn [option_map]. now rewrite E.
Qed.

Lemma handleScenarioChange_other_rows_witness :
  let s := Sc.mk (dec 2 1) "Scenario B" (dec 50000 1) (dec 45 1) in
  nth_error initialScenarios 1 = Some s
  /\ (s.(Sc.id) === dec 1 1) = false
  /\ nth_error
       (scenarioResults
          (handleScenarioChange (fun _ => dec 70000 1) (dec 1 1) S_pages
             "70000" initialScenarios)
          initialInput withDeadline salary) 1
     = nth_error
         (scenarioResults initialScenarios initialInput withDeadline salary)
         1.
Proof.
  assert (H : nth_error initialScenarios 1
              = Some (Sc.mk (dec 2 1) "Scenario B" (dec 50000 1) (dec 45 1)))
    by reflexivity.
  assert (E : ((Sc.mk (dec 2 1) "Scenario B" (dec 50000 1)
                  (dec 45 1)).(Sc.id) === dec 1 1) = false)
    by (vm_compute; reflexivity).
  split; [exact H|]. split; [exact E|].
  exact (handleScenarioChange_other_rows (fun _ => dec 70000 1) (dec 1 1)
           S_pages "70000" initialScenarios initialInput withDeadline salary
           1 _ H E).
Defined.

(** X20. Emptying a box of the form is handled as a zero.  With the pages
    box empty the result is invalid, the page message comes first and both
    optional groups are null; with the head-count box empty the fixed head
    count is 1; with the deadline box empty the deadline mode uses the
    manual head count. *)
Theorem emptied_boxes (Number : string -> number) (i : InputState)
  (m : Mode) (l : LaborMode) :
  (let r := calculate (handleChangeNumber Number F_pages "" i) m l in
   r.(valid) = false /\ hd_error r.(errors) = Some msg_pages
   /\ required_all_none r = true /\ trial_all_none r = true)
  /\ (calculate (handleChangeNumber Number F_workersManual "" i)
        noDeadline l).(workers) = one
  /\ (calculate (handleChangeNumber Number F_deadlineDays "" i)
        withDeadline l).(workers) = max one (sanitize i).(workersManual).
Proof.
  split; [|split].
  - intros r. subst r.
    set (j := handleChangeNumber Number F_pages "" i).
    assert (P : (sanitize j).(pages) = zero) by reflexivity.
    assert (V : (calculate j m l).(valid) = false).
    { rewrite valid_eq, no_errors_eq, P. reflexivity. }
    split; [exact V|]. split.
    + rewrite errors_eq, P.
      change (push_if (leb zero zero) msg_pages []) with [msg_pages].
      now repeat apply hd_error_push_if.
    + split.
      * apply required_fields_none. unfold required_guard.
        rewrite <- valid_eq, V. apply andb_false_r.
      * apply trial_fields_none. unfold trial_guard. rewrite P.
        change (gtb zero zero) with false.
        now rewrite andb_false_r.
  - rewrite workers_eq. reflexivity.
  - rewrite workers_eq. reflexivity.
Qed.


(** X21. The engine sanitizes its own input: running it on an input that is
    already sanitized gives the same result. *)
Theorem calculate_sanitize (i : InputState) (m : Mode) (l : LaborMode) :
  calculate (sanitize i) m l = calculate i m l.
Proof.
  destruct i as [p lp ms sc pc wd off rk gp cap wm dd tp].
  unfold sanitize. calc_norm.
  rewrite !(safeNumber_id (safeNumber _) (safeNumber_finite _)).
  reflexivity.
Qed.



(** ** Monotonicity of the head count *)

Section Monotone.
Local Open Scope Qc_scope.

Lemma Qc_inject_Z_le (a b : Z) :
  (a <= b)%Z -> Q2Qc (inject_Z a) <= Q2Qc (inject_Z b).
Proof.
  intros H. unfold Qcle. cbn [this Q2Qc]. rewrite !Qred_correct.
  now rewrite <- Zle_Qle.
Qed.

Lemma ceil_monotone (x y : number) :
  is_finite x = true -> is_finite y = true -> val x <= val y ->
  val (ceil x) <= val (ceil y).
Proof.
  intros X Y H. rewrite (ceil_val x X), (ceil_val y Y).
  apply Qc_inject_Z_le, Qceiling_resp_le. exact H.
Qed.

Lemma max_one_monotone (x y : number) :
  is_finite x = true -> is_finite y = true -> val x <= val y ->
  val (max one x) <= val (max one y).
Proof.
  intros X Y H. destruct (max_one_bounds y Y) as [B1 B2].
  destruct (max_one_cases x X) as [-> | [-> _]].
  - exact B1.
  - eapply Qcle_trans; eassumption.
Qed.

Lemma Qc_div_le_compat (a b y : Qc) : 0 < y -> a <= b -> a / y <= b / y.
Proof.
  intros Y H. apply (Qc_div_le_iff a y (b / y) Y).
  replace (b / y * y) with b by (field; now apply Qc_pos_neq). exact H.
Qed.

Lemma Qc_div_le_antitone (a y z : Qc) :
  0 <= a -> 0 < y -> y <= z -> a / z <= a / y.
Proof.
  intros A Y H.
  assert (Z : 0 < z) by (eapply Qclt_le_trans; eassumption).
  apply (Qc_div_le_iff a z (a / y) Z).
  assert (K : 0 <= a / y).
  { destruct (Qcle_lt_or_eq _ _ A) as [L | <-].
    - apply Qclt_le_weak. now apply Qc_div_pos.
    - unfold Qcdiv. rewrite Qcmult_0_l. apply Qcle_refl. }
  replace a with (a / y * y) at 1 by (field; now apply Qc_pos_neq).
  rewrite (Qcmult_comm (a / y) y), (Qcmult_comm (a / y) z).
  now apply Qcmult_le_compat_r.
Qed.

(** More pages or fewer days never lower the head count of the deadline
    formula. *)
Lemma headcount_monotone_num (P1 P2 C D1 D2 : number) :
  is_finite P1 = true -> is_finite P2 = true -> is_finite C = true ->
  is_finite D1 = true -> is_finite D2 = true ->
  gtb C zero = true -> gtb D2 zero = true ->
  leb P1 P2 = true -> leb D2 D1 = true ->
  leb (max one (ceil (div P1 (mul C D1))))
      (max one (ceil (div P2 (mul C D2)))) = true.
Proof.
  intros F1 F2 FC FD1 FD2 C0 D0 LP LD.
  pose proof (proj1 (gtb_true_finite C FC) C0) as Cp.
  pose proof (proj1 (gtb_true_finite D2 FD2) D0) as D2p.
  apply (leb_true_val P1 P2 F1 F2) in LP.
  apply (leb_true_val D2 D1 FD2 FD1) in LD.
  assert (D1p : 0 < val D1) by (eapply Qclt_le_trans; eassumption).
  destruct (mul_finite C D1 FC FD1) as [FM1 VM1].
  destruct (mul_finite C D2 FC FD2) as [FM2 VM2].
  assert (M1p : 0 < val (mul C D1)) by (rewrite VM1; now apply Qc_mul_pos).
  assert (M2p : 0 < val (mul C D2)) by (rewrite VM2; now apply Qc_mul_pos).
  assert (Z1 : is_zero (mul C D1) = false).
  { rewrite is_zero_val by trivial. now apply Qc_eqb_false, Qc_pos_neq. }
  assert (Z2 : is_zero (mul C D2) = false).
  { rewrite is_zero_val by trivial. now apply Qc_eqb_false, Qc_pos_neq. }
  destruct (div_finite P1 _ F1 FM1 Z1) as [FQ1 VQ1].
  destruct (div_finite P2 _ F2 FM2 Z2) as [FQ2 VQ2].
  pose proof (ceil_finite _ FQ1) as FK1.
  pose proof (ceil_finite _ FQ2) as FK2.
  apply (leb_true_val _ _ (max_one_finite _ FK1) (max_one_finite _ FK2)).
  destruct (Qclt_le_dec (val P1) 0) as [N | NN].
  - (* negative pages: the head count is 1 *)
    assert (X : val (div P1 (mul C D1)) <= val zero).
    { rewrite VQ1. apply Qclt_le_weak, Qcnot_le_lt. intros L.
      apply (Qc_le_div_iff _ _ _ M1p) in L.
      change (val zero) with 0 in L. rewrite Qcmult_0_l in L.
      now apply Qcle_not_lt in L. }
    pose proof (ceil_monotone _ zero FQ1 eq_refl X) as K.
    change (val (ceil zero)) with 0 in K.
    destruct (max_one_cases _ FK1) as [-> | [_ L]].
    + apply max_one_bounds. exact FK2.
    + apply (ltb_true_val one _ eq_refl FK1) in L. exfalso.
      apply (Qcle_not_lt _ _ K).
      eapply Qclt_trans; [|exact L]. now apply Qc_ltb_true.
  - apply max_one_monotone; trivial. apply ceil_monotone; trivial.
    rewrite VQ1, VQ2, VM1, VM2.
    apply Qcle_trans with (y := val P1 / (val C * val D2)).
    + apply Qc_div_le_antitone; trivial.
      * now apply Qc_mul_pos.
      * rewrite (Qcmult_comm (val C) (val D2)), (Qcmult_comm (val C) (val D1)).
        apply Qcmult_le_compat_r; trivial. now apply Qclt_le_weak.
    + apply Qc_div_le_compat; trivial. now apply Qc_mul_pos.
Qed.

End Monotone.


